(** * gitmanager: the collect / generate / publish pipeline of [main.py]

    A shallow embedding of [src/main.py].  Python text is a [string], read
    as a sequence of characters: lengths and slices count its elements,
    as Python counts characters (the two literals outside ASCII are
    written by their UTF-8 bytes and are never measured).  Python [int]
    is [Z], parsed JSON is the inductive [json].

    The three outside parties of the program (the shell running git, the
    language-model endpoint and the hosting service) are oracles
    collected in a [World]; every call to one of them is logged in a
    chronological trace of [event]s, so that "what was invoked, and in
    which order" is a statement about the trace. *)

From Stdlib Require Import ZArith List String Ascii Bool Lia DecimalString.
From Stdlib Require Import DecimalPos.
Import ListNotations.
Open Scope string_scope.
Open Scope Z_scope.
Set Warnings "-register-all".

(** ** Text *)

Module Text.

Definition LF : string := String (ascii_of_nat 10) EmptyString.

(** [s[:n]] *)
Fixpoint take (n : nat) (s : string) : string :=
  match n, s with
  | S k, String c r => String c (take k r)
  | _, _ => EmptyString
  end.

(** [s[n:]] *)
Fixpoint drop (n : nat) (s : string) : string :=
  match n, s with
  | S k, String _ r => drop k r
  | _, _ => s
  end.

(** [str.isspace] on the characters 0..255: the controls 9..13 and
    28..31, the blank, next-line and the no-break blank. *)
Definition isspace (c : ascii) : bool :=
  let k := nat_of_ascii c in
  ((9 <=? k) && (k <=? 13) || (28 <=? k) && (k <=? 32)
   || (k =? 133) || (k =? 160))%nat.

Fixpoint lstrip (s : string) : string :=
  match s with
  | String c r => if isspace c then lstrip r else s
  | EmptyString => EmptyString
  end.

Fixpoint rstrip (s : string) : string :=
  match s with
  | String c r =>
      match rstrip r with
      | EmptyString => if isspace c then EmptyString else String c EmptyString
      | r' => String c r'
      end
  | EmptyString => EmptyString
  end.

(** [s.strip()] *)
Definition strip (s : string) : string := rstrip (lstrip s).

Definition is_empty (s : string) : bool :=
  match s with EmptyString => true | _ => false end.

(** [str(z)] / [f"{z}"] for a Python int. *)
Definition of_Z (z : Z) : string := NilZero.string_of_int (Z.to_int z).

(** [t in s]: [t] occurs in [s] as a contiguous run of characters. *)
Definition occurs_in (t s : string) : Prop :=
  exists pre post, s = pre ++ t ++ post.


End Text.

(** ** Parsed JSON, as [response.json()] and the [json=] payloads have it.
    A Python dict keeps insertion order and has one value per key: an
    association list read by its first match. *)

Inductive json : Type :=
| JNull
| JBool (b : bool)
| JNum (z : Z)
| JStr (s : string)
| JArr (items : list json)
| JObj (fields : list (string * json)).

Fixpoint assoc {A : Type} (k : string) (kv : list (string * A)) : option A :=
  match kv with
  | [] => None
  | (k', v) :: rest => if String.eqb k k' then Some v else assoc k rest
  end.

(** ** Exceptions *)

Inductive exn : Type :=
| HTTPException (status_code : Z) (detail : string)
| CalledProcessError (msg : string)
| UnicodeDecodeError (msg : string)
| Exception_ (msg : string)
| KeyError (key : string)
| IndexError (msg : string)
| TypeError (msg : string)
| AttributeError (msg : string)
| JSONDecodeError (msg : string)
| RequestException (msg : string)
| ValueError (msg : string)
| OSError (msg : string).

(** [str(e)] *)
Definition exn_str (e : exn) : string :=
  match e with
  | HTTPException c d => Text.of_Z c ++ ": " ++ d
  | KeyError k => k
  | CalledProcessError m | UnicodeDecodeError m | Exception_ m
  | IndexError m | TypeError m | AttributeError m
  | JSONDecodeError m | RequestException m
  | ValueError m | OSError m => m
  end.

Definition is_http_exception (e : exn) : bool :=
  match e with HTTPException _ _ => true | _ => false end.

(** ** The outside world *)

(** What [subprocess.check_output(cmd, shell=True)] meets: the exit status
    of the shell and, on status 0, the captured bytes, which [.decode()]
    turns into text or rejects; or no run at all, when the command text
    holds a NUL character or the system cannot start the shell. *)
Inductive captured : Type :=
| Utf8 (s : string)
| NotUtf8 (msg : string).

Inductive start_failure : Type :=
| EmbeddedNul
| SystemError (msg : string).

Inductive proc : Type :=
| Exit0 (out : captured)
| ExitNonZero (msg : string)
| NotStarted (why : start_failure).

(** The exception [subprocess] raises instead of running the command. *)
Definition start_error (why : start_failure) : exn :=
  match why with
  | EmbeddedNul => ValueError "embedded null byte"
  | SystemError msg => OSError msg
  end.

Record Response : Type := mkResponse {
  status_code : Z;
  text : string;
  (** [None]: the body is not JSON and [.json()] raises. *)
  parsed : option json
}.

Inductive post_result : Type :=
| Responded (r : Response)
| Failed (msg : string).

Inductive event : Type :=
| Shell (cmd : string)
| Post (url : string) (headers : list (string * string)) (payload : json).

(** The oracles see the history of the request so far: git commands
    depend on the checkout made before them. *)
Record World : Type := mkWorld {
  shell_run : list event -> string -> proc;
  http_post : list event -> string -> list (string * string) -> json -> post_result
}.

(** ** Computations: a reader over the world, a writer of the trace, and
    Python's exceptions. *)

Inductive outcome (A : Type) : Type :=
| Return (a : A)
| Raise (e : exn).
Arguments Return {A} a.
Arguments Raise {A} e.

Definition M (A : Type) : Type := World -> list event -> outcome A * list event.

Definition ret {A} (a : A) : M A := fun _ tr => (Return a, tr).
Definition raise {A} (e : exn) : M A := fun _ tr => (Raise e, tr).

Definition bind {A B} (m : M A) (k : A -> M B) : M B :=
  fun w tr =>
    match m w tr with
    | (Return a, tr') => k a w tr'
    | (Raise e, tr') => (Raise e, tr')
    end.

(** [try: m except ...: h e]; [h] answers [None] for an exception its
    clauses do not match. *)
Definition try_except {A} (m : M A) (h : exn -> option (M A)) : M A :=
  fun w tr =>
    match m w tr with
    | (Return a, tr') => (Return a, tr')
    | (Raise e, tr') =>
        match h e with
        | Some k => k w tr'
        | None => (Raise e, tr')
        end
    end.

Definition lift {A} (o : outcome A) : M A := fun _ tr => (o, tr).

Declare Scope py_scope.
Delimit Scope py_scope with py.
Notation "x <- m ;; k" := (bind m (fun x => k))
  (at level 100, m at next level, right associativity) : py_scope.
Notation "m ;;; k" := (bind m (fun _ => k))
  (at level 100, right associativity) : py_scope.
Open Scope py_scope.

(** [subprocess.check_output(cmd, shell=True)].  The trace records the
    call, also when the command could not be started. *)
Definition check_output (cmd : string) : M captured :=
  fun w tr =>
    match shell_run w tr cmd with
    | Exit0 out => (Return out, (tr ++ [Shell cmd])%list)
    | ExitNonZero msg => (Raise (CalledProcessError msg), (tr ++ [Shell cmd])%list)
    | NotStarted why => (Raise (start_error why), (tr ++ [Shell cmd])%list)
    end.

(** [bytes.decode()] *)
Definition decode (b : captured) : M string :=
  match b with
  | Utf8 s => ret s
  | NotUtf8 msg => raise (UnicodeDecodeError msg)
  end.

(** [requests.post(url, json=payload, headers=headers)] *)
Definition requests_post (url : string) (payload : json)
    (headers : list (string * string)) : M Response :=
  fun w tr =>
    match http_post w tr url headers payload with
    | Responded r => (Return r, (tr ++ [Post url headers payload])%list)
    | Failed msg => (Raise (RequestException msg), (tr ++ [Post url headers payload])%list)
    end.

(** [response.json()] *)
Definition response_json (r : Response) : M json :=
  match parsed r with
  | Some j => ret j
  | None => raise (JSONDecodeError "Expecting value")
  end.

(** ** 2. History Collector: [run_git_commands] *)

(** A value formatted into a command line: [n_commits] is an [int] when
    the request carries it and the raw text of [GIT_N_COMMITS] when it
    comes from the environment. *)
Inductive pyval : Type :=
| PInt (z : Z)
| PStr (s : string).

Definition fmt (v : pyval) : string :=
  match v with PInt z => Text.of_Z z | PStr s => s end.

Definition truncation_bound : Z := 10000.

(** [changes_diff[:10000]] *)
Definition diff_detail (changes_diff : string) : string :=
  Text.take (Z.to_nat truncation_bound) changes_diff.

Definition full_context (commit_summary changes_stat changes_diff : string) : string :=
  Text.LF ++ "=== COMMIT SUMMARY ===" ++ Text.LF
  ++ commit_summary ++ Text.LF
  ++ Text.LF
  ++ "=== CHANGES STAT ===" ++ Text.LF
  ++ changes_stat ++ Text.LF
  ++ Text.LF
  ++ "=== GIT DIFF (Detail) ===" ++ Text.LF
  ++ diff_detail changes_diff ++ " " ++ Text.LF.

Definition rev_list_cmd (n : pyval) (base : string) : string :=
  "git rev-list --reverse " ++ base ++ "..HEAD | tail -n " ++ fmt n ++ " | head -n 1".
Definition diff_cmd (target_commit : string) : string :=
  "git diff " ++ target_commit ++ "^..HEAD".
Definition log_cmd (n : pyval) (base : string) : string :=
  "git log " ++ base ++ "..HEAD -n " ++ fmt n
  ++ " --pretty=format:" ++ String (ascii_of_nat 34) "%h %s" ++ String (ascii_of_nat 34) " --name-status".
Definition stat_cmd (target_commit : string) : string :=
  "git diff --stat " ++ target_commit ++ "^..HEAD".

Definition local_branch_of (branch : string) : string :=
  if String.prefix "origin/" branch
  then Text.drop (String.length "origin/") branch
  else branch.

Definition no_changes_msg : string :=
  "변경사항을 찾을 수 없거나 커밋 범위가 유효하지 않습니다.".

Definition run_git_commands_body (n : pyval) (base branch : string) : M string :=
  check_output "git fetch origin" ;;;
  let local_branch := local_branch_of branch in
  check_output ("git checkout " ++ local_branch) ;;;
  out <- check_output (rev_list_cmd n base) ;;
  decoded <- decode out ;;
  let target_commit := Text.strip decoded in
  if Text.is_empty target_commit then raise (Exception_ no_changes_msg) else
  out_diff <- check_output (diff_cmd target_commit) ;;
  changes_diff <- decode out_diff ;;
  out_log <- check_output (log_cmd n base) ;;
  commit_summary <- decode out_log ;;
  out_stat <- check_output (stat_cmd target_commit) ;;
  changes_stat <- decode out_stat ;;
  ret (full_context commit_summary changes_stat changes_diff).

Definition run_git_commands (n : pyval) (base branch : string) : M string :=
  try_except (run_git_commands_body n base branch)
    (fun e =>
       match e with
       | CalledProcessError _ =>
           Some (raise (HTTPException 500 ("Git command failed: " ++ exn_str e)))
       | _ => Some (raise (HTTPException 500 (exn_str e)))
       end).

(** ** Subscripts and [dict.get] on parsed JSON *)

Definition repr_str (k : string) : string := "'" ++ k ++ "'".

Definition type_name (v : json) : string :=
  match v with
  | JNull => "NoneType" | JBool _ => "bool" | JNum _ => "int"
  | JStr _ => "str" | JArr _ => "list" | JObj _ => "dict"
  end.

Definition not_subscriptable (v : json) : exn :=
  TypeError ("'" ++ type_name v ++ "' object is not subscriptable").

(** [v[k]] for a text key *)
Definition getitem_key (v : json) (k : string) : outcome json :=
  match v with
  | JObj kv =>
      match assoc k kv with
      | Some x => Return x
      | None => Raise (KeyError (repr_str k))
      end
  | JArr _ => Raise (TypeError "list indices must be integers or slices, not str")
  | JStr _ => Raise (TypeError "string indices must be integers, not 'str'")
  | _ => Raise (not_subscriptable v)
  end.

(** [v[i]] for an index [i >= 0]; the keys of a parsed JSON object are
    all text, so an integer is never among them. *)
Definition getitem_idx (v : json) (i : nat) : outcome json :=
  match v with
  | JArr l =>
      match nth_error l i with
      | Some x => Return x
      | None => Raise (IndexError "list index out of range")
      end
  | JStr s =>
      match String.get i s with
      | Some c => Return (JStr (String c EmptyString))
      | None => Raise (IndexError "string index out of range")
      end
  | JObj _ => Raise (KeyError (Text.of_Z (Z.of_nat i)))
  | _ => Raise (not_subscriptable v)
  end.

(** [v.get(k)] *)
Definition py_get (v : json) (k : string) : outcome json :=
  match v with
  | JObj kv =>
      match assoc k kv with
      | Some x => Return x
      | None => Return JNull
      end
  | _ => Raise (AttributeError ("'" ++ type_name v ++ "' object has no attribute 'get'"))
  end.

(** ** 3. Draft Generator: [generate_pr_content] *)

Record Draft : Type := mkDraft {
  title : string;
  body : json
}.

Definition system_prompt : string :=
  "You are an expert software developer and technical writer. Your task is to refine a Pull Request (PR) template and then draft a PR description using that refined template, referencing provided file changes.".

Definition user_prompt (template git_data : string) : string :=
  Text.LF ++ "Please write a Pull Request body." ++ Text.LF
  ++ Text.LF
  ++ "[PR Template]" ++ Text.LF
  ++ template ++ Text.LF
  ++ Text.LF
  ++ "[Code Changes & Logs]" ++ Text.LF
  ++ git_data ++ Text.LF
  ++ Text.LF
  ++ "Fill out the template based on the changes. Keep the tone professional." ++ Text.LF.

Definition gpt_url : string := "https://api.openai.com/v1/chat/completions".
Definition gpt_headers (api_key : string) : list (string * string) :=
  [("Authorization", "Bearer " ++ api_key); ("Content-Type", "application/json")].
Definition gpt_payload (model template git_data : string) : json :=
  JObj [("model", JStr model);
        ("messages",
         JArr [JObj [("role", JStr "system"); ("content", JStr system_prompt)];
               JObj [("role", JStr "user");
                     ("content", JStr (user_prompt template git_data))]])].

Definition gemini_url (api_key model : string) : string :=
  "https://generativelanguage.googleapis.com/v1beta/models/" ++ model
  ++ ":generateContent?key=" ++ api_key.
Definition gemini_headers : list (string * string) :=
  [("Content-Type", "application/json")].
Definition gemini_payload (template git_data : string) : json :=
  JObj [("contents",
         JArr [JObj [("parts",
           JArr [JObj [("text",
             JStr (system_prompt ++ Text.LF ++ user_prompt template git_data))]])]])].

Definition generate_pr_content
    (provider api_key model template git_data : string) : M Draft :=
  if (provider =? "gpt")%string then
    response <- requests_post gpt_url (gpt_payload model template git_data)
                  (gpt_headers api_key) ;;
    if negb (status_code response =? 200)%Z then
      raise (HTTPException (status_code response) ("LLM Error: " ++ text response))
    else
      j <- response_json response ;;
      choices <- lift (getitem_key j "choices") ;;
      choice <- lift (getitem_idx choices 0) ;;
      message <- lift (getitem_key choice "message") ;;
      content <- lift (getitem_key message "content") ;;
      ret {| title := "Update: " ++ model ++ " generated PR"; body := content |}
  else if (provider =? "gemini")%string then
    response <- requests_post (gemini_url api_key model)
                  (gemini_payload template git_data) gemini_headers ;;
    if negb (status_code response =? 200)%Z then
      raise (HTTPException (status_code response) ("LLM Error: " ++ text response))
    else
      try_except
        (j <- response_json response ;;
         candidates <- lift (getitem_key j "candidates") ;;
         candidate <- lift (getitem_idx candidates 0) ;;
         content_obj <- lift (getitem_key candidate "content") ;;
         parts <- lift (getitem_key content_obj "parts") ;;
         part <- lift (getitem_idx parts 0) ;;
         content <- lift (getitem_key part "text") ;;
         ret {| title := "Automated PR by Gemini"; body := content |})
        (fun e =>
           match e with
           | KeyError _ =>
               Some (raise (HTTPException 500
                       ("Gemini response parsing failed: " ++ text response)))
           | _ => None
           end)
  else
    raise (HTTPException 400 "Unsupported LLM provider").

(** ** 1. The request model: [PRRequest] *)

Record PRRequest : Type := mkPRRequest {
  owner : string;
  repository : string;
  token : string;
  branch : string;
  base_branch : string;
  n_commits : pyval;
  pr_template : string;
  llm_provider : string;
  llm_api_key : string;
  llm_model : string
}.

(** ** 4. Publisher: [create_github_pull_request] *)

Definition github_url (req : PRRequest) : string :=
  "https://api.github.com/repos/" ++ owner req ++ "/" ++ repository req ++ "/pulls".
Definition github_headers (req : PRRequest) : list (string * string) :=
  [("Authorization", "token " ++ token req);
   ("Accept", "application/vnd.github.v3+json")].
Definition github_payload (req : PRRequest) (title : string) (body : json) : json :=
  JObj [("title", JStr title); ("body", body);
        ("head", JStr (branch req)); ("base", JStr (base_branch req))].

Definition create_github_pull_request (req : PRRequest) (title : string)
    (body : json) : M json :=
  response <- requests_post (github_url req) (github_payload req title body)
                (github_headers req) ;;
  if (status_code response =? 201)%Z then
    response_json response
  else
    raise (HTTPException (status_code response) ("GitHub Error: " ++ text response)).

(** ** 5. The endpoint: [create_pr_endpoint] *)

Definition success_response (pr_url pr_number : json) : json :=
  JObj [("status", JStr "success"); ("pr_url", pr_url); ("pr_number", pr_number)].

Definition create_pr_endpoint (request : PRRequest) : M json :=
  git_data <- run_git_commands (n_commits request) (base_branch request)
                (branch request) ;;
  generated_content <- generate_pr_content (llm_provider request)
                         (llm_api_key request) (llm_model request)
                         (pr_template request) git_data ;;
  pr_result <- create_github_pull_request request (title generated_content)
                 (body generated_content) ;;
  pr_url <- lift (py_get pr_result "html_url") ;;
  pr_number <- lift (py_get pr_result "number") ;;
  ret (success_response pr_url pr_number).

(** ** 0. / 1. Inbound requests: environment defaults and validation

    [PRRequest] is a pydantic model and the body parameter of the route:
    the framework validates the JSON body against the field types before
    the endpoint function runs, and answers 422 without running it when a
    field fails.  A field absent from the body takes its default, which
    is used as it is (defaults are not validated); a field whose default
    is [...] is mandatory. *)

Inductive field_default (A : Type) : Type :=
| Required
| Default (a : A).
Arguments Required {A}.
Arguments Default {A} a.

Inductive reply : Type :=
| Ok200 (content : json)
| Unprocessable422
| HttpError (status : Z) (detail : string)
| InternalServerError (e : exn).

(** [Literal[...]]: exactly one of the listed texts. *)
Definition validate_literal (allowed : list string) (v : json) : option string :=
  match v with
  | JStr s => if existsb (String.eqb s) allowed then Some s else None
  | _ => None
  end.

Definition supported_providers : list string := ["gemini"; "gpt"].

Definition default_template : string :=
  "## 변경 사항" ++ Text.LF ++ "- " ++ Text.LF ++ Text.LF
  ++ "## 리뷰 포인트" ++ Text.LF ++ "- ".

Section Inbound.

(** [os.getenv] after [load_dotenv()]. *)
Variable getenv : string -> option string.

(** The validators of the [str] and [int] field types; which JSON values
    they coerce depends on the pydantic release, so they stay open. *)
Variable validate_str : json -> option string.
Variable validate_int : json -> option Z.

Definition env_default (key : string) (default_val : option string)
    : field_default string :=
  let otherwise :=
    match default_val with
    | Some d => Default d
    | None => Required
    end in
  match getenv key with
  | Some val => if Text.is_empty val then otherwise else Default val
  | None => otherwise
  end.

(** [os.getenv("GIT_N_COMMITS", 14)] *)
Definition n_commits_default : field_default pyval :=
  match getenv "GIT_N_COMMITS" with
  | Some val => Default (PStr val)
  | None => Default (PInt 14)
  end.

Definition field {A} (validate : json -> option A) (name : string)
    (d : field_default A) (obj : list (string * json)) : option A :=
  match assoc name obj with
  | Some v => validate v
  | None =>
      match d with
      | Default a => Some a
      | Required => None
      end
  end.

Definition validate_n_commits (v : json) : option pyval :=
  option_map PInt (validate_int v).

Definition parse_request (obj : list (string * json)) : option PRRequest :=
  match
    field validate_str "owner" (env_default "GITHUB_OWNER" None) obj,
    field validate_str "repository" (env_default "GITHUB_REPOSITORY" None) obj,
    field validate_str "token" (env_default "GITHUB_TOKEN" None) obj,
    field validate_str "branch" (env_default "GITHUB_BRANCH" None) obj,
    field validate_str "base_branch" (env_default "GITHUB_BASE_BRANCH" (Some "dev")) obj
  with
  | Some o, Some r, Some t, Some b, Some bb =>
      match
        field validate_n_commits "n_commits" n_commits_default obj,
        field validate_str "pr_template" (env_default "PR_TEMPLATE" (Some default_template)) obj,
        field (validate_literal supported_providers) "llm_provider"
          (env_default "LLM_PROVIDER" None) obj,
        field validate_str "llm_api_key" (env_default "LLM_API_KEY" None) obj,
        field validate_str "llm_model"
          (env_default "LLM_MODEL" (Some "gemini-2.0-flash-lite")) obj
      with
      | Some n, Some tpl, Some p, Some k, Some m =>
          Some {| owner := o; repository := r; token := t; branch := b;
                  base_branch := bb; n_commits := n; pr_template := tpl;
                  llm_provider := p; llm_api_key := k; llm_model := m |}
      | _, _, _, _, _ => None
      end
  | _, _, _, _, _ => None
  end.

(** [POST /create-pr]; [None] is a body that is not JSON. *)
Definition post_create_pr (request_body : option json)
    : World -> list event -> reply * list event :=
  fun w tr =>
    match request_body with
    | Some (JObj obj) =>
        match parse_request obj with
        | Some request =>
            match create_pr_endpoint request w tr with
            | (Return content, tr') => (Ok200 content, tr')
            | (Raise (HTTPException c d), tr') => (HttpError c d, tr')
            | (Raise e, tr') => (InternalServerError e, tr')
            end
        | None => (Unprocessable422, tr)
        end
    | _ => (Unprocessable422, tr)
    end.

End Inbound.

(** ** The shell pipeline of the anchor lookup

    [git rev-list --reverse base..HEAD] prints the commits ahead of the
    base, oldest first, one per line; [tail -n K] keeps the last [K]
    lines of its input and [head -n K] the first [K]. *)

Module Pipeline.

Definition print_lines (ls : list string) : string :=
  String.concat EmptyString (map (fun l => l ++ Text.LF) ls).

Definition tail_n (k : nat) (ls : list string) : list string :=
  skipn (List.length ls - k)%nat ls.

Definition head_n (k : nat) (ls : list string) : list string :=
  firstn k ls.


End Pipeline.

(** ** The shell, as far as the collector's pipeline needs it

    [check_output(cmd, shell=True)] hands the text to [sh].  For a text
    made of plain characters only (no quoting, no expansion), [sh]
    splits it into stages at [|] and each stage into words at blanks;
    the first stage is a program run, a stage [tail -n K] or [head -n K]
    filters the lines the stage before it printed, and the status of the
    pipeline is the status of its last stage.  Every other text, every
    other filter, a count that does not fit 64 bits, and a first stage
    that fails or prints bytes that are not text are left to the
    oracle, with the whole text. *)

Module Shell.

Definition is_digit (c : ascii) : bool :=
  let k := nat_of_ascii c in ((48 <=? k) && (k <=? 57))%nat.

Definition is_letter (c : ascii) : bool :=
  let k := nat_of_ascii c in
  ((65 <=? k) && (k <=? 90) || (97 <=? k) && (k <=? 122))%nat.

(** The characters of a branch or commit name that mean themselves to
    the shell. *)
Definition ref_char (c : ascii) : bool :=
  is_digit c || is_letter c
  || Ascii.eqb c "-" || Ascii.eqb c "." || Ascii.eqb c "/" || Ascii.eqb c "_".

Definition plain_char (c : ascii) : bool :=
  ref_char c || Ascii.eqb c " " || Ascii.eqb c "|".

Fixpoint all (p : ascii -> bool) (s : string) : bool :=
  match s with
  | EmptyString => true
  | String c r => p c && all p r
  end.

Definition plain (s : string) : bool := all plain_char s.


(** The pieces of [s] between occurrences of [sep]; [word] is the piece
    being read. *)
Fixpoint split_from (sep : ascii) (word s : string) : list string :=
  match s with
  | EmptyString => [word]
  | String c r =>
      if Ascii.eqb c sep then word :: split_from sep EmptyString r
      else split_from sep (word ++ String c EmptyString) r
  end.

Definition split_on (sep : ascii) (s : string) : list string :=
  split_from sep EmptyString s.

(** The words of a stage. *)
Definition args (stage : string) : list string :=
  filter (fun word => negb (Text.is_empty word)) (split_on " " stage).

(** A line count in decimal digits that fits 64 bits. *)
Definition count_of (s : string) : option nat :=
  match NilZero.uint_of_string s with
  | Some d => if Z.of_uint d <? 2 ^ 64 then Some (Z.to_nat (Z.of_uint d)) else None
  | None => None
  end.

Inductive line_filter : Type :=
| Tail (k : nat)
| Head (k : nat).

Definition filter_of (stage : string) : option line_filter :=
  match args stage with
  | [prog; opt; count] =>
      if (opt =? "-n")%string then
        match count_of count with
        | Some k =>
            if (prog =? "tail")%string then Some (Tail k)
            else if (prog =? "head")%string then Some (Head k)
            else None
        | None => None
        end
      else None
  | _ => None
  end.

Fixpoint filters_of (stages : list string) : option (list line_filter) :=
  match stages with
  | [] => Some []
  | stage :: more =>
      match filter_of stage, filters_of more with
      | Some f, Some fs => Some (f :: fs)
      | _, _ => None
      end
  end.

(** The lines of a text, each with its line end; a last line without
    line end is a line too. *)
Fixpoint lines_from (line s : string) : list string :=
  match s with
  | EmptyString => if Text.is_empty line then [] else [line]
  | String c r =>
      if Ascii.eqb c (ascii_of_nat 10)
      then (line ++ String c EmptyString) :: lines_from EmptyString r
      else lines_from (line ++ String c EmptyString) r
  end.

Definition split_lines (s : string) : list string := lines_from EmptyString s.

Definition run_filter (f : line_filter) (ls : list string) : list string :=
  match f with
  | Tail k => Pipeline.tail_n k ls
  | Head k => Pipeline.head_n k ls
  end.

Definition run_filters (fs : list line_filter) (out : string) : string :=
  String.concat EmptyString
    (fold_left (fun ls f => run_filter f ls) fs (split_lines out)).

(** [sh -c cmd], over the programs [prog] it can run. *)
Definition sh (prog : list event -> string -> proc)
    : list event -> string -> proc :=
  fun tr cmd =>
    if plain cmd then
      match split_on "|" cmd with
      | first :: second :: more =>
          match filters_of (second :: more),
                prog tr (String.concat " " (args first)) with
          | Some fs, Exit0 (Utf8 out) => Exit0 (Utf8 (run_filters fs out))
          | _, _ => prog tr cmd
          end
      | _ => prog tr cmd
      end
    else prog tr cmd.

End Shell.

(** ** Values inside a JSON document *)

Inductive step : Type :=
| Key (k : string)
| Idx (i : nat).

(** The value at a path of object keys and array positions. *)
Fixpoint json_at (path : list step) (j : json) : option json :=
  match path with
  | [] => Some j
  | Key k :: rest =>
      match j with
      | JObj kv =>
          match assoc k kv with
          | Some v => json_at rest v
          | None => None
          end
      | _ => None
      end
  | Idx i :: rest =>
      match j with
      | JArr l =>
          match nth_error l i with
          | Some v => json_at rest v
          | None => None
          end
      | _ => None
      end
  end.

(** Every text that occurs as a value somewhere in a document. *)
Fixpoint json_texts (j : json) : list string :=
  match j with
  | JStr s => [s]
  | JArr l => flat_map json_texts l
  | JObj kv => flat_map (fun p => json_texts (snd p)) kv
  | _ => []
  end.

(** ** Stages of the pipeline, read off the trace *)

Definition is_shell (e : event) : bool :=
  match e with Shell _ => true | Post _ _ _ => false end.

(** The six commands of a complete collection, in the order they run. *)
Definition collector_commands (n : pyval) (base branch anchor : string) : list event :=
  [Shell "git fetch origin";
   Shell ("git checkout " ++ local_branch_of branch);
   Shell (rev_list_cmd n base);
   Shell (diff_cmd anchor);
   Shell (log_cmd n base);
   Shell (stat_cmd anchor)].

Definition github_api : string := "https://api.github.com/".

Definition is_github_post (e : event) : bool :=
  match e with
  | Post url _ _ => String.prefix github_api url
  | Shell _ => false
  end.

(** A call to one of the two language-model endpoints. *)
Definition is_llm_post (e : event) : bool :=
  match e with
  | Post url _ _ =>
      String.prefix "https://api.openai.com/" url
      || String.prefix "https://generativelanguage.googleapis.com/" url
  | Shell _ => false
  end.

(** ** A concrete repository and concrete services, to run the model on *)

Module Demo.

Definition ahead : list string :=
  ["c01"; "c02"; "c03"; "c04"; "c05"; "c06"; "c07"; "c08"; "c09"; "c10";
   "c11"; "c12"; "c13"; "c14"; "c15"; "c16"; "c17"; "c18"; "c19"; "c20"].

Fixpoint replicate (n : nat) (c : ascii) : string :=
  match n with
  | O => EmptyString
  | S k => String c (replicate k c)
  end.

Definition small_diff : string := "diff --git a/f b/f".

Definition big_diff : string := replicate (Z.to_nat 12000) "+".

Definition big_context : string :=
  full_context "c20 Add feature" " 1 file changed, 1 insertion(+)" big_diff.

(** The programs of a checkout 20 commits ahead of [dev]; every command
    succeeds. *)
Definition git (changes_diff : string) : list event -> string -> proc :=
  fun _ cmd =>
    if (cmd =? "git rev-list --reverse dev..HEAD")%string
    then Exit0 (Utf8 (Pipeline.print_lines ahead))
    else if (cmd =? diff_cmd "c07")%string then Exit0 (Utf8 changes_diff)
    else if (cmd =? log_cmd (PInt 14) "dev")%string
    then Exit0 (Utf8 "c20 Add feature")
    else if (cmd =? stat_cmd "c07")%string
    then Exit0 (Utf8 " 1 file changed, 1 insertion(+)")
    else Exit0 (Utf8 EmptyString).

Definition shell (changes_diff : string) : list event -> string -> proc :=
  Shell.sh (git changes_diff).

Definition http (llm github : post_result)
    : list event -> string -> list (string * string) -> json -> post_result :=
  fun _ url _ _ => if String.prefix github_api url then github else llm.

Definition world (changes_diff : string) (llm github : post_result) : World :=
  {| shell_run := shell changes_diff; http_post := http llm github |}.

Definition request (provider model : string) : PRRequest :=
  {| owner := "octo"; repository := "demo"; token := "t0";
     branch := "feature/x"; base_branch := "dev"; n_commits := PInt 14;
     pr_template := "## Changes"; llm_provider := provider;
     llm_api_key := "k0"; llm_model := model |}.

Definition respond (status : Z) (text : string) (j : option json) : post_result :=
  Responded {| status_code := status; text := text; parsed := j |}.

Definition gemini_reply (content : string) : json :=
  JObj [("candidates",
         JArr [JObj [("content",
           JObj [("parts", JArr [JObj [("text", JStr content)]])])]])].

Definition gpt_reply (content : string) : json :=
  JObj [("choices",
         JArr [JObj [("message", JObj [("content", JStr content)])]])].

Definition created : post_result :=
  respond 201 "{...}"
    (Some (JObj [("html_url", JStr "https://github.com/octo/demo/pull/7");
                 ("number", JNum 7)])).

Definition getenv_none : string -> option string := fun _ => None.

(** An environment that names a provider the program does not know. *)
Definition getenv_claude : string -> option string :=
  fun key => if (key =? "LLM_PROVIDER")%string then Some "claude" else None.

Definition str_only (v : json) : option string :=
  match v with JStr s => Some s | _ => None end.

Definition int_only (v : json) : option Z :=
  match v with JNum z => Some z | _ => None end.

End Demo.

(** ** Vocabulary of the statements *)

Definition supported (provider : string) : Prop :=
  provider = "gpt" \/ provider = "gemini".

(** The call the generator makes for a supported provider. *)
Definition llm_url (provider api_key model : string) : string :=
  if (provider =? "gpt")%string then gpt_url else gemini_url api_key model.
Definition llm_headers (provider api_key : string) : list (string * string) :=
  if (provider =? "gpt")%string then gpt_headers api_key else gemini_headers.
Definition llm_payload (provider model template git_data : string) : json :=
  if (provider =? "gpt")%string then gpt_payload model template git_data
  else gemini_payload template git_data.

Definition llm_answers (w : World) (tr : list event)
    (provider api_key model template git_data : string) (r : Response) : Prop :=
  http_post w tr (llm_url provider api_key model) (llm_headers provider api_key)
    (llm_payload provider model template git_data) = Responded r.

(** The text handed to the model: the user message for the chat
    endpoint, preamble and user prompt in one part for the other. *)
Definition prompt_sent (provider template git_data : string) : string :=
  if (provider =? "gpt")%string then user_prompt template git_data
  else system_prompt ++ Text.LF ++ user_prompt template git_data.

Definition gpt_path : list step :=
  [Key "choices"; Idx 0; Key "message"; Key "content"].
Definition gemini_path : list step :=
  [Key "candidates"; Idx 0; Key "content"; Key "parts"; Idx 0; Key "text"].

Definition fixed_title (provider model : string) : string :=
  if (provider =? "gpt")%string then "Update: " ++ model ++ " generated PR"
  else "Automated PR by Gemini".

Definition extraction_path (provider : string) : list step :=
  if (provider =? "gpt")%string then gpt_path else gemini_path.

Definition github_answers (w : World) (tr : list event) (req : PRRequest)
    (title : string) (body : json) (r : Response) : Prop :=
  http_post w tr (github_url req) (github_headers req)
    (github_payload req title body) = Responded r.

(** [d.get(k)] on a dict, as a value. *)
Definition get_or_null (k : string) (kv : list (string * json)) : json :=
  match assoc k kv with
  | Some v => v
  | None => JNull
  end.

(** ** Vocabulary of the further properties *)

(** What a failed collection reports: always status 500, and always
    about the last command it called. *)
Inductive collector_failure (n : pyval) (base : string) (w : World)
    (before : list event) (cmd : string) : exn -> Prop :=
| command_failed msg :
    shell_run w before cmd = ExitNonZero msg ->
    collector_failure n base w before cmd
      (HTTPException 500 ("Git command failed: " ++ msg))
| output_not_text msg :
    shell_run w before cmd = Exit0 (NotUtf8 msg) ->
    collector_failure n base w before cmd (HTTPException 500 msg)
| nothing_ahead out :
    cmd = rev_list_cmd n base ->
    shell_run w before cmd = Exit0 (Utf8 out) ->
    Text.strip out = EmptyString ->
    collector_failure n base w before cmd (HTTPException 500 no_changes_msg)
| could_not_start why :
    shell_run w before cmd = NotStarted why ->
    collector_failure n base w before cmd
      (HTTPException 500 (exn_str (start_error why))).

Definition unsupported_error : exn := HTTPException 400 "Unsupported LLM provider".

(** Two requests that differ at most in owner, repository and token. *)
Definition same_inputs (a b : PRRequest) : Prop :=
  branch a = branch b /\ base_branch a = base_branch b /\
  n_commits a = n_commits b /\ pr_template a = pr_template b /\
  llm_provider a = llm_provider b /\ llm_api_key a = llm_api_key b /\
  llm_model a = llm_model b.

(** An event that is not a call to the hosting service. *)
Definition before_publish (e : event) : bool := negb (is_github_post e).

(** ** The environment and the mandatory fields *)

(** The fields declared with [env_default(KEY)] and no fallback, each
    with its variable. *)
Definition mandatory_fields : list (string * string) :=
  [("owner", "GITHUB_OWNER"); ("repository", "GITHUB_REPOSITORY");
   ("token", "GITHUB_TOKEN"); ("branch", "GITHUB_BRANCH");
   ("llm_provider", "LLM_PROVIDER"); ("llm_api_key", "LLM_API_KEY")].

(** The variable is absent, or present and empty. *)
Definition unset (getenv : string -> option string) (key : string) : Prop :=
  getenv key = None \/ getenv key = Some EmptyString.

Definition is_set (getenv : string -> option string) (key val : string) : Prop :=
  getenv key = Some val /\ val <> EmptyString.

(** ** More concrete repositories and services *)

Module Cases.

Definition no_service : list event -> string -> list (string * string) -> json
                        -> post_result :=
  fun _ _ _ _ => Failed "connection refused".

(** The fetch works, every other command exits with status 1. *)
Definition no_such_branch : World :=
  {| shell_run := fun _ cmd =>
       if (cmd =? "git fetch origin")%string then Exit0 (Utf8 EmptyString)
       else ExitNonZero "exit status 1";
     http_post := no_service |}.

(** Every command succeeds and prints an empty line. *)
Definition nothing_ahead : World :=
  {| shell_run := fun _ _ => Exit0 (Utf8 Text.LF);
     http_post := no_service |}.


(** Twenty commits ahead, a Gemini answer with a text, a created pull
    request; the request names its branch with the remote prefix. *)
Definition all_fine : World :=
  Demo.world Demo.small_diff
    (Demo.respond 200 "{...}" (Some (Demo.gemini_reply "Body"))) Demo.created.

Definition origin_request : PRRequest :=
  {| owner := "octo"; repository := "demo"; token := "t0";
     branch := "origin/feature/x"; base_branch := "dev"; n_commits := PInt 14;
     pr_template := "## Changes"; llm_provider := "gemini";
     llm_api_key := "k0"; llm_model := "gemini-2.0-flash-lite" |}.

(** An environment that sets the six variables of the mandatory fields
    and the commit count. *)
Definition getenv_full : string -> option string :=
  fun key =>
    assoc key [("GITHUB_OWNER", "octo"); ("GITHUB_REPOSITORY", "demo");
               ("GITHUB_TOKEN", "t0"); ("GITHUB_BRANCH", "feature/x");
               ("LLM_PROVIDER", "claude"); ("LLM_API_KEY", "k0");
               ("GIT_N_COMMITS", "5")].

(** The demo request against another repository, with another token. *)
Definition other_repository : PRRequest :=
  {| owner := "acme"; repository := "tools"; token := "t1";
     branch := "feature/x"; base_branch := "dev"; n_commits := PInt 14;
     pr_template := "## Changes"; llm_provider := "gemini";
     llm_api_key := "k0"; llm_model := "gemini-2.0-flash-lite" |}.

End Cases.

(** ** Subscripting along a path, as the generator does it *)

Definition subscript (j : json) (s : step) : outcome json :=
  match s with
  | Key k => getitem_key j k
  | Idx i => getitem_idx j i
  end.

(** [j[s1][s2]...]: the first subscript that raises ends the chain. *)
Fixpoint subscripts (path : list step) (j : json) : outcome json :=
  match path with
  | [] => Return j
  | s :: rest =>
      match subscript j s with
      | Return x => subscripts rest x
      | Raise e => Raise e
      end
  end.

(** ** Characters that do not end a piece of a split *)

Definition other_than (sep c : ascii) : bool := negb (Ascii.eqb c sep).

(** * Properties *)

(** ** Text *)

Module TextFacts.
Import Text.

Lemma length_app (a b : string) :
  String.length (a ++ b) = (String.length a + String.length b)%nat.
Proof. induction a as [|c a IH]; simpl; [reflexivity | now rewrite IH]. Qed.

Lemma app_assoc (a b c : string) : (a ++ b) ++ c = a ++ (b ++ c).
Proof. induction a as [|x a IH]; simpl; [reflexivity | now rewrite IH]. Qed.

Lemma app_empty_r (a : string) : a ++ EmptyString = a.
Proof. induction a as [|x a IH]; simpl; [reflexivity | now rewrite IH]. Qed.

Lemma take_length (n : nat) (s : string) :
  (String.length (take n s) <= n)%nat.
Proof.
  revert s; induction n as [|n IH]; intros [|c s]; simpl; try lia.
  specialize (IH s); lia.
Qed.

Lemma take_drop (n : nat) (s : string) : take n s ++ drop n s = s.
Proof.
  revert s; induction n as [|n IH]; intros [|c s]; simpl; try reflexivity.
  now rewrite IH.
Qed.

Lemma occurs_in_app_l (a t s : string) : occurs_in t s -> occurs_in t (a ++ s).
Proof.
  intros (pre & post & ->). exists (a ++ pre), post. now rewrite app_assoc.
Qed.

Lemma occurs_in_refl (t : string) : occurs_in t t.
Proof. exists EmptyString, EmptyString. simpl. now rewrite app_empty_r. Qed.



End TextFacts.

(** ** The History Collector *)

Ltac step_shell H :=
  match type of H with
  | context [shell_run ?w ?t ?c] =>
      let E := fresh "E" in
      destruct (shell_run w t c) as [?|?|[|?]] eqn:E; cbv beta iota in H;
      try discriminate H
  end.

Ltac step_decode H :=
  match type of H with
  | context [match ?o with Utf8 _ => _ | NotUtf8 _ => _ end] =>
      destruct o; cbv beta iota in H; try discriminate H
  end.

Lemma run_git_commands_returns n base branch w tr ctx tr' :
  run_git_commands n base branch w tr = (Return ctx, tr') ->
  exists rev changes_diff commit_summary changes_stat,
    let anchor := Text.strip rev in
    let t3 := (tr ++ firstn 3 (collector_commands n base branch anchor))%list in
    let t4 := (tr ++ firstn 4 (collector_commands n base branch anchor))%list in
    let t5 := (tr ++ firstn 5 (collector_commands n base branch anchor))%list in
    shell_run w (tr ++ firstn 2 (collector_commands n base branch anchor))%list
      (rev_list_cmd n base) = Exit0 (Utf8 rev) /\
    anchor <> EmptyString /\
    shell_run w t3 (diff_cmd anchor) = Exit0 (Utf8 changes_diff) /\
    shell_run w t4 (log_cmd n base) = Exit0 (Utf8 commit_summary) /\
    shell_run w t5 (stat_cmd anchor) = Exit0 (Utf8 changes_stat) /\
    ctx = full_context commit_summary changes_stat changes_diff /\
    tr' = (tr ++ collector_commands n base branch anchor)%list.
Proof.
  unfold run_git_commands, try_except, run_git_commands_body, bind,
    check_output, decode, ret, raise, start_error.
  intros H.
  do 3 step_shell H. step_decode H.
  destruct (Text.is_empty (Text.strip _)) eqn:Hempty in H; cbv beta iota in H;
    try discriminate H.
  do 3 (step_shell H; step_decode H).
  injection H as <- <-.
  repeat rewrite <- List.app_assoc in *. simpl app in *.
  match goal with
  | E : shell_run _ _ (rev_list_cmd _ _) = Exit0 (Utf8 ?r) |- _ => exists r
  end.
  do 3 eexists. cbv zeta. unfold collector_commands. simpl firstn.
  repeat split; try eassumption.
  intros Heq. rewrite Heq in Hempty. discriminate.
Qed.

Ltac norm_trace := repeat rewrite <- List.app_assoc; simpl app.


(** Whatever happens, the collector only runs shell commands, and it
    ends with a context or with an HTTP error of status 500. *)
Lemma run_git_commands_trace n base branch w tr :
  exists t,
    snd (run_git_commands n base branch w tr) = (tr ++ t)%list /\
    forallb is_shell t = true /\
    match fst (run_git_commands n base branch w tr) with
    | Return _ => True
    | Raise e => exists d, e = HTTPException 500 d
    end.
Proof.
  unfold run_git_commands, try_except, run_git_commands_body, bind,
    check_output, decode, ret, raise, start_error.
  repeat
    match goal with
    | |- context [shell_run ?w ?t ?c] =>
        destruct (shell_run w t c) as [[?|?]|?|[|?]]; cbv beta iota
    | |- context [Text.is_empty ?s] =>
        destruct (Text.is_empty s); cbv beta iota
    | |- exists t, snd (_, ?tr') = _ /\ _ =>
        simpl fst; simpl snd; norm_trace; eexists; split; [reflexivity|];
        split; [reflexivity | try exact I; eexists; reflexivity]
    end.
Qed.


Lemma full_context_length commit_summary changes_stat changes_diff :
  String.length (full_context commit_summary changes_stat changes_diff)
  = (String.length commit_summary + String.length changes_stat
     + String.length (diff_detail changes_diff) + 77)%nat.
Proof.
  unfold full_context. rewrite !TextFacts.length_app. simpl. lia.
Qed.

(** C4. Whenever the collector produces a Change Context, its text ends
    with the [=== GIT DIFF (Detail) ===] heading followed by the diff
    section, a blank and a line end; the section is the first 10000
    characters of what [git diff anchor^..HEAD] printed, so its length
    is at most 10000 however long that output is, and the whole context
    is at most 10077 characters longer than the summary and the stat. *)
Theorem diff_section_bounded n base branch w tr ctx tr' :
  run_git_commands n base branch w tr = (Return ctx, tr') ->
  exists anchor commit_summary changes_stat changes_diff head,
    let ran k := (tr ++ firstn k (collector_commands n base branch anchor))%list in
    shell_run w (ran 3%nat) (diff_cmd anchor) = Exit0 (Utf8 changes_diff) /\
    shell_run w (ran 4%nat) (log_cmd n base) = Exit0 (Utf8 commit_summary) /\
    shell_run w (ran 5%nat) (stat_cmd anchor) = Exit0 (Utf8 changes_stat) /\
    ctx = head ++ "=== GIT DIFF (Detail) ===" ++ Text.LF
          ++ diff_detail changes_diff ++ " " ++ Text.LF /\
    diff_detail changes_diff ++ Text.drop (Z.to_nat 10000) changes_diff
      = changes_diff /\
    Z.of_nat (String.length (diff_detail changes_diff)) <= 10000 /\
    Z.of_nat (String.length ctx)
    <= Z.of_nat (String.length commit_summary)
       + Z.of_nat (String.length changes_stat) + 10077.
Proof.
  intros H.
  apply run_git_commands_returns in H.
  destruct H as (rev & d & s & st & _ & _ & Hd & Hs & Hst & -> & _).
  exists (Text.strip rev), s, st, d.
  exists (Text.LF ++ "=== COMMIT SUMMARY ===" ++ Text.LF ++ s ++ Text.LF
          ++ Text.LF ++ "=== CHANGES STAT ===" ++ Text.LF ++ st ++ Text.LF
          ++ Text.LF).
  cbv zeta.
  split; [exact Hd|]. split; [exact Hs|]. split; [exact Hst|].
  split; [unfold full_context; now rewrite !TextFacts.app_assoc|].
  split; [apply TextFacts.take_drop|].
  pose proof (TextFacts.take_length (Z.to_nat truncation_bound) d) as Hb.
  fold (diff_detail d) in Hb. unfold truncation_bound in Hb.
  split; [lia|].
  rewrite full_context_length. lia.
Qed.

Lemma diff_section_bounded_witness :
  String.length Demo.big_diff = Z.to_nat 12000 /\
  exists anchor commit_summary changes_stat changes_diff head,
    let w := Demo.world Demo.big_diff Demo.created Demo.created in
    let ran k :=
      ([] ++ firstn k (collector_commands (PInt 14) "dev" "feature/x" anchor))%list in
    shell_run w (ran 3%nat) (diff_cmd anchor) = Exit0 (Utf8 changes_diff) /\
    shell_run w (ran 4%nat) (log_cmd (PInt 14) "dev") = Exit0 (Utf8 commit_summary) /\
    shell_run w (ran 5%nat) (stat_cmd anchor) = Exit0 (Utf8 changes_stat) /\
    Demo.big_context
    = head ++ "=== GIT DIFF (Detail) ===" ++ Text.LF
      ++ diff_detail changes_diff ++ " " ++ Text.LF /\
    diff_detail changes_diff ++ Text.drop (Z.to_nat 10000) changes_diff
      = changes_diff /\
    Z.of_nat (String.length (diff_detail changes_diff)) <= 10000 /\
    Z.of_nat (String.length Demo.big_context)
    <= Z.of_nat (String.length commit_summary)
       + Z.of_nat (String.length changes_stat) + 10077.
Proof.
  split; [vm_compute; reflexivity|].
  apply (diff_section_bounded (PInt 14) "dev" "feature/x"
           (Demo.world Demo.big_diff Demo.created Demo.created) []
           Demo.big_context
           (collector_commands (PInt 14) "dev" "feature/x" "c07")).
  vm_compute. reflexivity.
Defined.

(** ** The shell model *)

Module ShellFacts.
Import Shell.



Lemma split_from_app sep word a rest :
  all (other_than sep) a = true ->
  split_from sep word (a ++ rest) = split_from sep (word ++ a) rest.
Proof.
  revert word; induction a as [|c a IH]; intros word H; simpl in *.
  - now rewrite TextFacts.app_empty_r.
  - apply andb_true_iff in H. destruct H as [Hc Ha].
    unfold other_than in Hc. apply negb_true_iff in Hc. rewrite Hc.
    rewrite (IH _ Ha). rewrite TextFacts.app_assoc. reflexivity.
Qed.


Lemma split_on_last sep a :
  all (other_than sep) a = true -> split_on sep a = [a].
Proof.
  intros H. unfold split_on.
  rewrite <- (TextFacts.app_empty_r a) at 1.
  now rewrite (split_from_app _ _ _ _ H).
Qed.


Lemma args_last w :
  w <> EmptyString -> all (other_than " ") w = true -> args w = [w].
Proof.
  intros Hne H. unfold args. rewrite (split_on_last _ _ H).
  simpl. destruct w; [now elim Hne | reflexivity].
Qed.





(** The decimal text of a count. *)







End ShellFacts.

Module SelectionFacts.
Import Shell ShellFacts.














End SelectionFacts.




(** ** The Draft Generator *)

Lemma user_prompt_contains template git_data :
  Text.occurs_in template (user_prompt template git_data) /\
  Text.occurs_in git_data (user_prompt template git_data).
Proof.
  unfold user_prompt. split.
  - exists (Text.LF ++ "Please write a Pull Request body." ++ Text.LF ++ Text.LF
            ++ "[PR Template]" ++ Text.LF).
    eexists. rewrite !TextFacts.app_assoc. reflexivity.
  - exists (Text.LF ++ "Please write a Pull Request body." ++ Text.LF ++ Text.LF
            ++ "[PR Template]" ++ Text.LF ++ template ++ Text.LF ++ Text.LF
            ++ "[Code Changes & Logs]" ++ Text.LF).
    eexists. rewrite !TextFacts.app_assoc. reflexivity.
Qed.

(** C9. The prompt is a function of the template and the Change Context
    and holds both verbatim, for every template and every context; for
    either provider the generator makes one call, whose payload carries
    that prompt unchanged (alone for the chat endpoint, after the fixed
    preamble for the other). *)
Theorem prompt_contains_inputs (template git_data : string) :
  Text.occurs_in template (user_prompt template git_data) /\
  Text.occurs_in git_data (user_prompt template git_data) /\
  forall provider api_key model w tr,
    supported provider ->
    snd (generate_pr_content provider api_key model template git_data w tr)
    = (tr ++ [Post (llm_url provider api_key model) (llm_headers provider api_key)
                (llm_payload provider model template git_data)])%list /\
    In (prompt_sent provider template git_data)
      (json_texts (llm_payload provider model template git_data)) /\
    Text.occurs_in (user_prompt template git_data)
      (prompt_sent provider template git_data).
Proof.
  destruct (user_prompt_contains template git_data) as [Ht Hg].
  split; [exact Ht|]. split; [exact Hg|].
  intros provider api_key model w tr [-> | ->].
  - change (llm_url "gpt" api_key model) with gpt_url.
    change (llm_headers "gpt" api_key) with (gpt_headers api_key).
    change (llm_payload "gpt" model template git_data)
      with (gpt_payload model template git_data).
    split; [|split; [|apply TextFacts.occurs_in_refl]].
    + unfold generate_pr_content, bind, requests_post. cbv beta iota.
      change ("gpt" =? "gpt")%string with true. cbv beta iota.
      destruct (http_post w tr gpt_url _ _) as [r|m]; [|reflexivity].
      destruct (negb (status_code r =? 200)); [reflexivity|].
      unfold response_json, lift, ret, raise.
      destruct (parsed r) as [j|]; [|reflexivity].
      repeat match goal with
             | |- context [getitem_key ?v ?k] => destruct (getitem_key v k)
             | |- context [getitem_idx ?v ?k] => destruct (getitem_idx v k)
             end; reflexivity.
    + simpl. repeat (first [left; reflexivity | right]).
  - change (llm_url "gemini" api_key model) with (gemini_url api_key model).
    change (llm_headers "gemini" api_key) with gemini_headers.
    change (llm_payload "gemini" model template git_data)
      with (gemini_payload template git_data).
    split; [|split].
    + unfold generate_pr_content, bind, requests_post, try_except. cbv beta iota.
      change ("gemini" =? "gpt")%string with false.
      change ("gemini" =? "gemini")%string with true. cbv beta iota.
      destruct (http_post w tr _ _ _) as [r|m]; [|reflexivity].
      destruct (negb (status_code r =? 200)); [reflexivity|].
      unfold response_json, lift, ret, raise.
      destruct (parsed r) as [j|]; [|reflexivity].
      repeat match goal with
             | |- context [getitem_key ?v ?k] =>
                 destruct (getitem_key v k) as [?|[]]
             | |- context [getitem_idx ?v ?k] =>
                 destruct (getitem_idx v k) as [?|[]]
             end; reflexivity.
    + simpl. left. reflexivity.
    + change (prompt_sent "gemini" template git_data)
        with (system_prompt ++ Text.LF ++ user_prompt template git_data).
      do 2 apply TextFacts.occurs_in_app_l. apply TextFacts.occurs_in_refl.
Qed.

Lemma prompt_contains_inputs_witness :
  snd (generate_pr_content "gemini" "k0" "gemini-2.0-flash-lite"
         "## Changes" "=== GIT DIFF (Detail) ==="
         (Demo.world Demo.small_diff (Demo.respond 200 "{...}" (Some (Demo.gemini_reply "Body")))
            Demo.created) [])
  = [Post (gemini_url "k0" "gemini-2.0-flash-lite") gemini_headers
       (gemini_payload "## Changes" "=== GIT DIFF (Detail) ===")] /\
  In (prompt_sent "gemini" "## Changes" "=== GIT DIFF (Detail) ===")
    (json_texts (gemini_payload "## Changes" "=== GIT DIFF (Detail) ===")) /\
  Text.occurs_in (user_prompt "## Changes" "=== GIT DIFF (Detail) ===")
    (prompt_sent "gemini" "## Changes" "=== GIT DIFF (Detail) ===").
Proof.
  apply (proj2 (proj2 (prompt_contains_inputs "## Changes"
                         "=== GIT DIFF (Detail) ==="))
           "gemini" "k0" "gemini-2.0-flash-lite"
           (Demo.world Demo.small_diff (Demo.respond 200 "{...}" (Some (Demo.gemini_reply "Body")))
              Demo.created) []).
  right. reflexivity.
Defined.

Lemma getitem_key_at v k x rest :
  getitem_key v k = Return x -> json_at (Key k :: rest) v = json_at rest x.
Proof.
  destruct v; simpl; intros H; try discriminate H.
  destruct (assoc k fields); [|discriminate H].
  now injection H as ->.
Qed.

(** An index into a text yields a text, which has no keys: a subscript
    chain that goes on with a key went through an array. *)
Lemma getitem_idx_key_at v i x k y rest :
  getitem_idx v i = Return x -> getitem_key x k = Return y ->
  json_at (Idx i :: Key k :: rest) v = json_at rest y.
Proof.
  destruct v; simpl; intros H Hk; try discriminate H.
  - destruct (String.get i s); [|discriminate H].
    injection H as <-. discriminate Hk.
  - destruct (nth_error items i); [|discriminate H].
    injection H as ->. now apply getitem_key_at.
Qed.

Ltac step_getitem H E :=
  match type of H with
  | context [getitem_key ?v ?k] =>
      destruct (getitem_key v k) as [?|[]] eqn:E; cbv beta iota in H;
      try discriminate H
  | context [getitem_idx ?v ?k] =>
      destruct (getitem_idx v k) as [?|[]] eqn:E; cbv beta iota in H;
      try discriminate H
  end.

(** A draft is only ever returned after a call answered with status
    200 and a JSON body; its body is the value found at the provider's
    path in the answer, its title is fixed by the provider and the
    model name. *)
Lemma generate_pr_content_returns provider api_key model template git_data w tr d tr' :
  generate_pr_content provider api_key model template git_data w tr = (Return d, tr') ->
  exists r j,
    llm_answers w tr provider api_key model template git_data r /\
    tr' = (tr ++ [Post (llm_url provider api_key model) (llm_headers provider api_key)
                    (llm_payload provider model template git_data)])%list /\
    status_code r = 200 /\
    parsed r = Some j /\
    ((provider = "gpt" /\
      title d = "Update: " ++ model ++ " generated PR" /\
      json_at gpt_path j = Some (body d))
     \/
     (provider = "gemini" /\
      title d = "Automated PR by Gemini" /\
      json_at gemini_path j = Some (body d))).
Proof.
  unfold generate_pr_content, bind, requests_post, try_except, response_json,
    lift, ret, raise.
  destruct (String.eqb_spec provider "gpt") as [-> | Hgpt].
  - intros H.
    destruct (http_post w tr _ _ _) as [r|m] eqn:Hpost; [|discriminate H].
    cbv beta iota in H.
    destruct (status_code r =? 200) eqn:Hs; [|discriminate H].
    cbv beta iota in H. simpl negb in H. cbv beta iota in H.
    destruct (parsed r) as [j|] eqn:Hj; [|discriminate H].
    cbv beta iota in H.
    step_getitem H E1. step_getitem H E2. step_getitem H E3. step_getitem H E4.
    injection H as <- <-.
    exists r, j.
    split; [exact Hpost|]. split; [reflexivity|].
    split; [now apply Z.eqb_eq|]. split; [exact Hj|].
    left. split; [reflexivity|]. split; [reflexivity|]. simpl body.
    unfold gpt_path.
    rewrite (getitem_key_at _ _ _ _ E1).
    rewrite (getitem_idx_key_at _ _ _ _ _ _ E2 E3).
    now rewrite (getitem_key_at _ _ _ _ E4).
  - destruct (String.eqb_spec provider "gemini") as [-> | Hgem];
      [|intros H; discriminate H].
    intros H.
    destruct (http_post w tr _ _ _) as [r|m] eqn:Hpost; [|discriminate H].
    cbv beta iota in H.
    destruct (status_code r =? 200) eqn:Hs; [|discriminate H].
    cbv beta iota in H. simpl negb in H. cbv beta iota in H.
    destruct (parsed r) as [j|] eqn:Hj; [|discriminate H].
    cbv beta iota in H.
    step_getitem H E1. step_getitem H E2. step_getitem H E3.
    step_getitem H E4. step_getitem H E5. step_getitem H E6.
    injection H as <- <-.
    exists r, j.
    split; [exact Hpost|]. split; [reflexivity|].
    split; [now apply Z.eqb_eq|]. split; [exact Hj|].
    right. split; [reflexivity|]. split; [reflexivity|]. simpl body.
    unfold gemini_path.
    rewrite (getitem_key_at _ _ _ _ E1).
    rewrite (getitem_idx_key_at _ _ _ _ _ _ E2 E3).
    rewrite (getitem_key_at _ _ _ _ E4).
    rewrite (getitem_idx_key_at _ _ _ _ _ _ E5 E6).
    reflexivity.
Qed.

(** C5, as the code has it. For every successful generation the body of
    the draft is extracted from the model's answer (it is the value at
    the provider's path of the JSON body of a reply with status 200),
    and the title is a text fixed by the provider and the requested
    model name, whatever the model answered. *)
Theorem draft_body_from_model_title_fixed
    provider api_key model template git_data w tr d tr' :
  generate_pr_content provider api_key model template git_data w tr = (Return d, tr') ->
  supported provider /\
  title d = fixed_title provider model /\
  exists r j,
    llm_answers w tr provider api_key model template git_data r /\
    status_code r = 200 /\
    parsed r = Some j /\
    json_at (extraction_path provider) j = Some (body d).
Proof.
  intros H. apply generate_pr_content_returns in H.
  destruct H as (r & j & Hpost & _ & Hs & Hj & Hcase).
  destruct Hcase as [(-> & Ht & Hb) | (-> & Ht & Hb)].
  - split; [now left|]. split; [exact Ht|]. now exists r, j.
  - split; [now right|]. split; [exact Ht|]. now exists r, j.
Qed.

Lemma draft_body_from_model_title_fixed_witness :
  supported "gpt" /\
  title {| title := "Update: gpt-4o generated PR"; body := JStr "Body" |}
  = fixed_title "gpt" "gpt-4o" /\
  exists r j,
    llm_answers (Demo.world Demo.small_diff (Demo.respond 200 "{...}" (Some (Demo.gpt_reply "Body")))
                   Demo.created) [] "gpt" "k0" "gpt-4o" "## Changes" "ctx" r /\
    status_code r = 200 /\
    parsed r = Some j /\
    json_at (extraction_path "gpt") j
    = Some (body {| title := "Update: gpt-4o generated PR"; body := JStr "Body" |}).
Proof.
  apply (draft_body_from_model_title_fixed "gpt" "k0" "gpt-4o" "## Changes" "ctx"
           (Demo.world Demo.small_diff (Demo.respond 200 "{...}" (Some (Demo.gpt_reply "Body")))
              Demo.created)
           [] _
           [Post gpt_url (gpt_headers "k0") (gpt_payload "gpt-4o" "## Changes" "ctx")]).
  reflexivity.
Defined.

(** Two successful generations on different answers of the model: the
    bodies follow the answers, the title is the same text both times and
    occurs in neither answer. *)
Lemma title_not_from_model :
  generate_pr_content "gemini" "k0" "gemini-2.0-flash-lite" "## Changes" "ctx"
    (Demo.world Demo.small_diff (Demo.respond 200 "{...}" (Some (Demo.gemini_reply "First answer")))
       Demo.created) []
  = (Return {| title := "Automated PR by Gemini"; body := JStr "First answer" |},
     [Post (gemini_url "k0" "gemini-2.0-flash-lite") gemini_headers
        (gemini_payload "## Changes" "ctx")])
  /\
  generate_pr_content "gemini" "k0" "gemini-2.0-flash-lite" "## Changes" "ctx"
    (Demo.world Demo.small_diff (Demo.respond 200 "{...}" (Some (Demo.gemini_reply "Second answer")))
       Demo.created) []
  = (Return {| title := "Automated PR by Gemini"; body := JStr "Second answer" |},
     [Post (gemini_url "k0" "gemini-2.0-flash-lite") gemini_headers
        (gemini_payload "## Changes" "ctx")])
  /\
  ~ In "Automated PR by Gemini" (json_texts (Demo.gemini_reply "First answer"))
  /\
  ~ In "Automated PR by Gemini" (json_texts (Demo.gemini_reply "Second answer")).
Proof.
  split; [reflexivity|]. split; [reflexivity|].
  split; simpl; intros [H|[]]; discriminate H.
Qed.

(** Any answer whose status is not 200 is turned into an HTTP error of
    that status. *)
Lemma llm_non_200 provider api_key model template git_data w tr r :
  supported provider ->
  llm_answers w tr provider api_key model template git_data r ->
  status_code r <> 200 ->
  fst (generate_pr_content provider api_key model template git_data w tr)
  = Raise (HTTPException (status_code r) ("LLM Error: " ++ text r)).
Proof.
  intros Hp Hpost Hs. apply Z.eqb_neq in Hs.
  unfold generate_pr_content, bind, requests_post.
  destruct Hp as [-> | ->].
  - change (http_post w tr gpt_url (gpt_headers api_key)
              (gpt_payload model template git_data) = Responded r) in Hpost.
    change ("gpt" =? "gpt")%string with true. cbv beta iota.
    rewrite Hpost. cbv beta iota. now rewrite Hs.
  - change (http_post w tr (gemini_url api_key model) gemini_headers
              (gemini_payload template git_data) = Responded r) in Hpost.
    change ("gemini" =? "gpt")%string with false.
    change ("gemini" =? "gemini")%string with true. cbv beta iota.
    rewrite Hpost. cbv beta iota. now rewrite Hs.
Qed.

(** C8. When the language-model endpoint answers with a status outside
    200..299, for either provider, the generator raises an HTTP error
    whose status code is the status of that answer. *)
Theorem llm_error_status_matches provider api_key model template git_data w tr r :
  supported provider ->
  llm_answers w tr provider api_key model template git_data r ->
  ~ (200 <= status_code r <= 299) ->
  exists detail,
    fst (generate_pr_content provider api_key model template git_data w tr)
    = Raise (HTTPException (status_code r) detail) /\
    Text.occurs_in (text r) detail.
Proof.
  intros Hp Hpost Hs.
  exists ("LLM Error: " ++ text r). split.
  - apply llm_non_200; [assumption | assumption | lia].
  - apply TextFacts.occurs_in_app_l, TextFacts.occurs_in_refl.
Qed.

Lemma llm_error_status_matches_witness :
  exists detail,
    fst (generate_pr_content "gpt" "k0" "gpt-4o" "## Changes" "ctx"
           (Demo.world Demo.small_diff (Demo.respond 429 "rate limited" None) Demo.created) [])
    = Raise (HTTPException 429 detail) /\
    Text.occurs_in "rate limited" detail.
Proof.
  apply (llm_error_status_matches "gpt" "k0" "gpt-4o" "## Changes" "ctx"
           (Demo.world Demo.small_diff (Demo.respond 429 "rate limited" None) Demo.created) []
           {| status_code := 429; text := "rate limited"; parsed := None |}).
  - left. reflexivity.
  - reflexivity.
  - simpl. lia.
Defined.

(** A 200 answer of the Gemini endpoint whose JSON object has no
    [candidates] key is reported as an HTTP error 500 carrying the
    answer's text. *)
Lemma gemini_missing_candidates_reported api_key model template git_data w tr r kv :
  llm_answers w tr "gemini" api_key model template git_data r ->
  status_code r = 200 ->
  parsed r = Some (JObj kv) ->
  assoc "candidates" kv = None ->
  fst (generate_pr_content "gemini" api_key model template git_data w tr)
  = Raise (HTTPException 500 ("Gemini response parsing failed: " ++ text r)).
Proof.
  intros Hpost Hs Hj Hk.
  change (http_post w tr (gemini_url api_key model) gemini_headers
            (gemini_payload template git_data) = Responded r) in Hpost.
  unfold generate_pr_content, bind, requests_post, try_except, response_json,
    lift, ret, raise.
  change ("gemini" =? "gpt")%string with false.
  change ("gemini" =? "gemini")%string with true. cbv beta iota.
  rewrite Hpost. cbv beta iota. rewrite Hs. simpl negb. cbv beta iota.
  rewrite Hj. cbv beta iota. unfold getitem_key. rewrite Hk. reflexivity.
Qed.

(** C3, where the code departs from it. A 200 answer of the Gemini
    endpoint with an empty [candidates] list escapes as an [IndexError],
    and a 200 answer of the chat endpoint without [choices] escapes as a
    [KeyError]: neither is turned into an HTTP error. *)
Theorem malformed_reply_escapes :
  fst (generate_pr_content "gemini" "k0" "gemini-2.0-flash-lite" "## Changes" "ctx"
         (Demo.world Demo.small_diff (Demo.respond 200 "{}" (Some (JObj [("candidates", JArr [])])))
            Demo.created) [])
  = Raise (IndexError "list index out of range")
  /\
  fst (generate_pr_content "gpt" "k0" "gpt-4o" "## Changes" "ctx"
         (Demo.world Demo.small_diff (Demo.respond 200 "{}" (Some (JObj []))) Demo.created) [])
  = Raise (KeyError "'choices'")
  /\
  is_http_exception (IndexError "list index out of range") = false
  /\
  is_http_exception (KeyError "'choices'") = false.
Proof. repeat split; reflexivity. Qed.

(** ** The Publisher *)

(** C7. When the hosting service answers the creation call with a
    status other than 201, the publisher returns nothing: it raises an
    HTTP error whose status is the status of the answer and whose detail
    holds the text of the answer. *)
Theorem publish_error_surfaces req title body w tr r :
  github_answers w tr req title body r ->
  status_code r <> 201 ->
  exists detail,
    create_github_pull_request req title body w tr
    = (Raise (HTTPException (status_code r) detail),
       (tr ++ [Post (github_url req) (github_headers req)
                 (github_payload req title body)])%list) /\
    Text.occurs_in (text r) detail.
Proof.
  intros Hpost Hs. apply Z.eqb_neq in Hs.
  exists ("GitHub Error: " ++ text r). split.
  - unfold create_github_pull_request, bind, requests_post, raise.
    rewrite Hpost. cbv beta iota. now rewrite Hs.
  - apply TextFacts.occurs_in_app_l, TextFacts.occurs_in_refl.
Qed.

Lemma publish_error_surfaces_witness :
  exists detail,
    create_github_pull_request (Demo.request "gpt" "gpt-4o") "Title" (JStr "Body")
      (Demo.world Demo.small_diff Demo.created (Demo.respond 422 "Validation Failed" None)) []
    = (Raise (HTTPException 422 detail),
       ([] ++ [Post (github_url (Demo.request "gpt" "gpt-4o"))
                 (github_headers (Demo.request "gpt" "gpt-4o"))
                 (github_payload (Demo.request "gpt" "gpt-4o") "Title" (JStr "Body"))])%list)
    /\ Text.occurs_in "Validation Failed" detail.
Proof.
  apply (publish_error_surfaces (Demo.request "gpt" "gpt-4o") "Title" (JStr "Body")
           (Demo.world Demo.small_diff Demo.created (Demo.respond 422 "Validation Failed" None)) []
           {| status_code := 422; text := "Validation Failed"; parsed := None |}).
  - reflexivity.
  - simpl. lia.
Defined.

(** ** The endpoint *)

(** C10, as the code has it. Once the collector and the generator have
    succeeded, a 201 answer of the hosting service whose body is a JSON
    object makes the endpoint return the object with [status] "success",
    [pr_url] and [pr_number], whichever keys the answer has: [pr_url]
    and [pr_number] are the values under [html_url] and [number], and
    null for a key that is missing. *)
Theorem created_without_fields request w tr git_data t1 d t2 r kv :
  run_git_commands (n_commits request) (base_branch request) (branch request) w tr
  = (Return git_data, t1) ->
  generate_pr_content (llm_provider request) (llm_api_key request)
    (llm_model request) (pr_template request) git_data w t1 = (Return d, t2) ->
  github_answers w t2 request (title d) (body d) r ->
  status_code r = 201 ->
  parsed r = Some (JObj kv) ->
  create_pr_endpoint request w tr
  = (Return (JObj [("status", JStr "success");
                   ("pr_url", match assoc "html_url" kv with
                              | Some v => v
                              | None => JNull
                              end);
                   ("pr_number", match assoc "number" kv with
                                 | Some v => v
                                 | None => JNull
                                 end)]),
     (t2 ++ [Post (github_url request) (github_headers request)
               (github_payload request (title d) (body d))])%list).
Proof.
  intros Hc Hg Hpost Hs Hj.
  unfold create_pr_endpoint, bind.
  rewrite Hc. cbv beta iota. rewrite Hg. cbv beta iota.
  unfold create_github_pull_request, bind, requests_post, response_json.
  rewrite Hpost. cbv beta iota. rewrite Hs.
  change (201 =? 201) with true. cbv beta iota.
  rewrite Hj. unfold ret, lift, py_get.
  destruct (assoc "html_url" kv); destruct (assoc "number" kv); reflexivity.
Qed.

Lemma created_without_fields_witness :
  fst (create_pr_endpoint (Demo.request "gemini" "gemini-2.0-flash-lite")
         (Demo.world Demo.small_diff
            (Demo.respond 200 "{...}" (Some (Demo.gemini_reply "Body")))
            (Demo.respond 201 "{}" (Some (JObj [])))) [])
  = Return (JObj [("status", JStr "success"); ("pr_url", JNull);
                  ("pr_number", JNull)]).
Proof.
  refine (f_equal fst
            (created_without_fields
               (Demo.request "gemini" "gemini-2.0-flash-lite")
               (Demo.world Demo.small_diff
                  (Demo.respond 200 "{...}" (Some (Demo.gemini_reply "Body")))
                  (Demo.respond 201 "{}" (Some (JObj [])))) []
               (full_context "c20 Add feature" " 1 file changed, 1 insertion(+)"
                  Demo.small_diff)
               (collector_commands (PInt 14) "dev" "feature/x" "c07")
               {| title := "Automated PR by Gemini"; body := JStr "Body" |}
               _
               {| status_code := 201; text := "{}"; parsed := Some (JObj []) |}
               [] _ _ _ _ _)); reflexivity.
Defined.

(** A 201 answer whose body is the JSON list [[]]: the pull request has
    been created (the call is the last event), and the endpoint raises
    on [.get] instead of returning a response. *)
Lemma created_with_list_body_raises :
  exists calls,
    create_pr_endpoint (Demo.request "gemini" "gemini-2.0-flash-lite")
      (Demo.world Demo.small_diff
         (Demo.respond 200 "{...}" (Some (Demo.gemini_reply "Body")))
         (Demo.respond 201 "[]" (Some (JArr [])))) []
    = (Raise (AttributeError "'list' object has no attribute 'get'"),
       (calls
        ++ [Post "https://api.github.com/repos/octo/demo/pulls"
              [("Authorization", "token t0");
               ("Accept", "application/vnd.github.v3+json")]
              (JObj [("title", JStr "Automated PR by Gemini");
                     ("body", JStr "Body"); ("head", JStr "feature/x");
                     ("base", JStr "dev")])])%list).
Proof.
  exists (collector_commands (PInt 14) "dev" "feature/x" "c07"
          ++ [Post (gemini_url "k0" "gemini-2.0-flash-lite") gemini_headers
                (gemini_payload "## Changes"
                   (full_context "c20 Add feature"
                      " 1 file changed, 1 insertion(+)" Demo.small_diff))])%list.
  reflexivity.
Qed.

Lemma prefix_app (a s : string) : String.prefix a (a ++ s) = true.
Proof.
  induction a as [|c a IH]; simpl.
  - now destruct s.
  - destruct (ascii_dec c c) as [_|Hc]; [exact IH | now elim Hc].
Qed.

Lemma prefix_split (a s : string) :
  String.prefix a s = true -> exists rest, s = a ++ rest.
Proof.
  revert s; induction a as [|c a IH]; intros s H.
  - now exists s.
  - destruct s as [|c' s]; simpl in H; [discriminate H|].
    destruct (ascii_dec c c') as [<-|]; [|discriminate H].
    destruct (IH s H) as [rest ->]. now exists rest.
Qed.

Lemma llm_post_not_github (e : event) :
  is_llm_post e = true -> is_github_post e = false.
Proof.
  destruct e as [cmd | url h p]; simpl; [reflexivity|].
  intros H. destruct (String.prefix github_api url) eqn:Hg; [|reflexivity].
  apply prefix_split in Hg. destruct Hg as [rest ->].
  apply orb_true_iff in H. destruct H as [H|H];
    apply prefix_split in H; destruct H as [rest' H];
    unfold github_api in H; simpl in H; discriminate H.
Qed.

Lemma shell_not_post (e : event) :
  is_shell e = true -> is_llm_post e = false /\ is_github_post e = false.
Proof. destruct e; simpl; [now split | discriminate]. Qed.

Lemma existsb_none {A} (p q : A -> bool) (l : list A) :
  (forall x, p x = true -> q x = false) ->
  forallb p l = true -> existsb q l = false.
Proof.
  intros Hpq. induction l as [|x l IH]; simpl; [reflexivity|].
  intros H. apply andb_true_iff in H. destruct H as [Hx Hl].
  now rewrite (Hpq x Hx), (IH Hl).
Qed.

Lemma github_url_is_github (req : PRRequest) :
  String.prefix github_api (github_url req) = true.
Proof.
  change (github_url req)
    with (github_api ++ "repos/" ++ owner req ++ "/" ++ repository req ++ "/pulls").
  apply prefix_app.
Qed.

(** Whatever happens, the generator calls nothing but a language-model
    endpoint. *)
Lemma generate_pr_content_trace provider api_key model template git_data w tr :
  exists tg,
    snd (generate_pr_content provider api_key model template git_data w tr)
    = (tr ++ tg)%list /\
    forallb is_llm_post tg = true.
Proof.
  unfold generate_pr_content, bind, requests_post, try_except, response_json,
    lift, ret, raise.
  destruct (provider =? "gpt")%string.
  - exists [Post gpt_url (gpt_headers api_key) (gpt_payload model template git_data)].
    split; [|reflexivity].
    destruct (http_post w tr gpt_url _ _) as [r|m]; [|reflexivity].
    cbv beta iota.
    destruct (negb (status_code r =? 200)); [reflexivity|].
    destruct (parsed r) as [j|]; [|reflexivity].
    repeat match goal with
           | |- context [getitem_key ?v ?k] => destruct (getitem_key v k)
           | |- context [getitem_idx ?v ?k] => destruct (getitem_idx v k)
           end; reflexivity.
  - destruct (provider =? "gemini")%string.
    + exists [Post (gemini_url api_key model) gemini_headers
                (gemini_payload template git_data)].
      split.
      * destruct (http_post w tr _ _ _) as [r|m]; [|reflexivity].
        cbv beta iota.
        destruct (negb (status_code r =? 200)); [reflexivity|].
        destruct (parsed r) as [j|]; [|reflexivity].
        repeat match goal with
               | |- context [getitem_key ?v ?k] =>
                   destruct (getitem_key v k) as [?|[]]
               | |- context [getitem_idx ?v ?k] =>
                   destruct (getitem_idx v k) as [?|[]]
               end; reflexivity.
      * cbn [forallb]. unfold is_llm_post.
        change (gemini_url api_key model)
          with ("https://generativelanguage.googleapis.com/"
                ++ "v1beta/models/" ++ model ++ ":generateContent?key=" ++ api_key).
        rewrite prefix_app. now rewrite orb_true_r.
    + exists []. split; [now rewrite List.app_nil_r | reflexivity].
Qed.

(** Whatever happens, the publisher makes exactly one call, to the
    hosting service. *)
Lemma create_github_pull_request_trace req title body w tr :
  snd (create_github_pull_request req title body w tr)
  = (tr ++ [Post (github_url req) (github_headers req)
              (github_payload req title body)])%list.
Proof.
  unfold create_github_pull_request, bind, requests_post, response_json, ret, raise.
  destruct (http_post w tr _ _ _) as [r|m]; [|reflexivity].
  cbv beta iota.
  destruct (status_code r =? 201); [|reflexivity].
  destruct (parsed r); reflexivity.
Qed.

(** C6. The endpoint runs collect, generate, publish in that order: the
    trace of a request is shell commands, then calls to the language
    model, then one call to the hosting service.  When the collector
    raises, the request ends with that error and no call was made to the
    model or to the hosting service; when the generator raises, the
    request ends with that error and no call was made to the hosting
    service; when the publisher raises, the request ends with that
    error.  A response is returned only when all three stages have
    returned, and it is then the success response. *)
Theorem stages_in_order_no_partial_success (request : PRRequest) (w : World) :
  let collect :=
    run_git_commands (n_commits request) (base_branch request) (branch request) w [] in
  let result := create_pr_endpoint request w [] in
  forallb is_shell (snd collect) = true /\
  match fst collect with
  | Raise e =>
      result = (Raise e, snd collect) /\
      existsb is_llm_post (snd result) = false /\
      existsb is_github_post (snd result) = false
  | Return git_data =>
      let generate :=
        generate_pr_content (llm_provider request) (llm_api_key request)
          (llm_model request) (pr_template request) git_data w (snd collect) in
      (exists tg, snd generate = (snd collect ++ tg)%list /\
                  forallb is_llm_post tg = true) /\
      match fst generate with
      | Raise e =>
          result = (Raise e, snd generate) /\
          existsb is_github_post (snd result) = false
      | Return d =>
          let publish :=
            create_github_pull_request request (title d) (body d) w (snd generate) in
          (exists p, snd publish = (snd generate ++ [p])%list /\
                     is_github_post p = true) /\
          snd result = snd publish /\
          match fst publish with
          | Raise e => fst result = Raise e
          | Return pr_result =>
              forall content, fst result = Return content ->
                exists pr_url pr_number, content = success_response pr_url pr_number
          end
      end
  end.
Proof.
  cbv zeta.
  destruct (run_git_commands_trace (n_commits request) (base_branch request)
              (branch request) w []) as (tc & Htc & Hshell & _).
  simpl app in Htc.
  unfold create_pr_endpoint, bind.
  destruct (run_git_commands _ _ _ w []) as [[git_data|e] t1].
  - simpl fst in *. simpl snd in *. subst t1. cbv beta iota.
    split; [exact Hshell|].
    destruct (generate_pr_content_trace (llm_provider request) (llm_api_key request)
                (llm_model request) (pr_template request) git_data w tc)
      as (tg & Htg & Hllm).
    destruct (generate_pr_content _ _ _ _ _ w tc) as [[d|e] t2].
    + simpl fst in *. simpl snd in *. subst t2. cbv beta iota.
      split; [now exists tg|].
      pose proof (create_github_pull_request_trace request (title d) (body d) w
                    (tc ++ tg)%list) as Hp.
      destruct (create_github_pull_request _ _ _ w _) as [[pr_result|e] t3].
      * simpl fst in *. simpl snd in *. subst t3. cbv beta iota.
        split.
        { eexists. split; [reflexivity|]. apply github_url_is_github. }
        unfold lift, ret.
        destruct (py_get pr_result "html_url") as [u|e1];
          [|split; [reflexivity | intros c Hc; discriminate Hc]].
        destruct (py_get pr_result "number") as [k|e2];
          [|split; [reflexivity | intros c Hc; discriminate Hc]].
        split; [reflexivity|].
        intros c Hc. injection Hc as <-. now exists u, k.
      * simpl fst in *. simpl snd in *. subst t3.
        split.
        { eexists. split; [reflexivity|]. apply github_url_is_github. }
        split; reflexivity.
    + simpl fst in *. simpl snd in *. subst t2.
      split; [now exists tg|].
      split; [reflexivity|].
      simpl snd. rewrite existsb_app.
      rewrite (existsb_none is_shell is_github_post tc
                 (fun x Hx => proj2 (shell_not_post x Hx)) Hshell).
      now rewrite (existsb_none is_llm_post is_github_post tg llm_post_not_github Hllm).
  - simpl fst in *. simpl snd in *. subst t1.
    split; [exact Hshell|].
    split; [reflexivity|]. simpl snd.
    rewrite (existsb_none is_shell is_llm_post tc
               (fun x Hx => proj1 (shell_not_post x Hx)) Hshell).
    now rewrite (existsb_none is_shell is_github_post tc
                   (fun x Hx => proj2 (shell_not_post x Hx)) Hshell).
Qed.

(** ** Inbound validation *)






(** The same body with a supported provider passes validation and the
    endpoint runs. *)
Example supported_provider_accepted :
  fst (post_create_pr Demo.getenv_none Demo.str_only Demo.int_only
         (Some (JObj [("owner", JStr "octo"); ("repository", JStr "demo");
                      ("token", JStr "t0"); ("branch", JStr "feature/x");
                      ("llm_provider", JStr "gemini"); ("llm_api_key", JStr "k0")]))
         (Demo.world Demo.small_diff
            (Demo.respond 200 "{...}" (Some (Demo.gemini_reply "Body"))) Demo.created) [])
  = Ok200 (success_response (JStr "https://github.com/octo/demo/pull/7") (JNum 7)).
Proof. reflexivity. Qed.

(** A provider that comes from the environment default is not checked
    against the two supported values: the endpoint runs, and the value
    is only refused by the generator, after the git commands. *)
Example provider_default_not_validated :
  post_create_pr Demo.getenv_claude Demo.str_only Demo.int_only
    (Some (JObj [("owner", JStr "octo"); ("repository", JStr "demo");
                 ("token", JStr "t0"); ("branch", JStr "feature/x");
                 ("llm_api_key", JStr "k0")]))
    (Demo.world Demo.small_diff Demo.created Demo.created) []
  = (HttpError 400 "Unsupported LLM provider",
     collector_commands (PInt 14) "dev" "feature/x" "c07").
Proof. reflexivity. Qed.

(** * Further properties of the code *)

(** ** The collector: order of the commands, failures, truncation *)

Ltac flat_trace := repeat rewrite <- List.app_assoc; cbn [app].

Ltac collector_cases :=
  unfold run_git_commands, try_except, run_git_commands_body, bind,
    check_output, decode, ret, raise, start_error;
  repeat
    match goal with
    | |- context [shell_run ?w ?t ?c] =>
        let E := fresh "E" in
        destruct (shell_run w t c) as [[?|?]|?|[|?]] eqn:E; cbv beta iota
    | |- context [Text.is_empty ?s] =>
        let E := fresh "Hempty" in
        destruct (Text.is_empty s) eqn:E; cbv beta iota
    end.

Ltac prefix_of_six k :=
  first [ exists EmptyString; exists k; split; [lia|];
          split; [norm_trace; reflexivity | intros ? Hret; discriminate Hret]
        | eexists; exists k; split; [lia|];
          split; [norm_trace; reflexivity
                 | first [ intros ? Hret; discriminate Hret | reflexivity ] ] ].

(** The commands of a run are the first [k] of the six, in their order,
    for some [k >= 1]: the fetch always runs, and a context is returned
    only after all six. *)
Lemma run_git_commands_prefix n base branch w tr :
  exists anchor k,
    (1 <= k <= 6)%nat /\
    snd (run_git_commands n base branch w tr)
    = (tr ++ firstn k (collector_commands n base branch anchor))%list /\
    (forall ctx, fst (run_git_commands n base branch w tr) = Return ctx -> k = 6%nat).
Proof.
  collector_cases; simpl fst; simpl snd; unfold collector_commands;
    first [ prefix_of_six 1%nat | prefix_of_six 2%nat | prefix_of_six 3%nat
          | prefix_of_six 4%nat | prefix_of_six 5%nat | prefix_of_six 6%nat ].
Qed.

Ltac last_command :=
  match goal with
  | |- exists t c, (?tr ++ [Shell ?c0])%list = _ /\ _ =>
      exists [], c0
  | |- exists t c, (?tr ++ [?a; Shell ?c0])%list = _ /\ _ =>
      exists [a], c0
  | |- exists t c, (?tr ++ [?a; ?b; Shell ?c0])%list = _ /\ _ =>
      exists [a; b], c0
  | |- exists t c, (?tr ++ [?a; ?b; ?c1; Shell ?c0])%list = _ /\ _ =>
      exists [a; b; c1], c0
  | |- exists t c, (?tr ++ [?a; ?b; ?c1; ?d; Shell ?c0])%list = _ /\ _ =>
      exists [a; b; c1; d], c0
  | |- exists t c, (?tr ++ [?a; ?b; ?c1; ?d; ?e; Shell ?c0])%list = _ /\ _ =>
      exists [a; b; c1; d; e], c0
  end.

Lemma is_empty_strip (s : string) : Text.is_empty s = true -> s = EmptyString.
Proof. now destruct s. Qed.

(** X1. When the collector fails, the error is an HTTP
    error of status 500 about the last command it called: that command
    exited with a non-zero status (detail "Git command failed: ..."), or
    printed bytes that are not text, or it was the commit listing and it
    printed nothing but white space (the no-changes message), or it was
    not run at all, because its text holds a NUL character or the system
    could not start it (the detail is then the text of that error). *)
Theorem collector_error_is_about_last_command n base branch w tr e tr' :
  run_git_commands n base branch w tr = (Raise e, tr') ->
  exists t cmd,
    tr' = (tr ++ t ++ [Shell cmd])%list /\
    collector_failure n base w (tr ++ t)%list cmd e.
Proof.
  collector_cases; intros H; try discriminate H;
    injection H as <- <-;
    repeat rewrite <- List.app_assoc in *; simpl app in *;
    last_command; (split; [reflexivity|]);
    simpl app; rewrite ?List.app_nil_r;
    first [ eapply command_failed; eassumption
          | eapply output_not_text; eassumption
          | eapply nothing_ahead;
            [reflexivity | eassumption | now apply is_empty_strip]
          | match goal with
            | E : shell_run _ _ _ = NotStarted ?why |- _ =>
                exact (could_not_start _ _ _ _ _ why E)
            end ].
Qed.

Lemma collector_error_is_about_last_command_witness :
  exists t cmd,
    [Shell "git fetch origin"; Shell "git checkout nope"]
    = ([] ++ t ++ [Shell cmd])%list /\
    collector_failure (PInt 14) "dev" Cases.no_such_branch ([] ++ t)%list cmd
      (HTTPException 500 "Git command failed: exit status 1").
Proof.
  apply (collector_error_is_about_last_command (PInt 14) "dev" "origin/nope"
           Cases.no_such_branch []).
  reflexivity.
Defined.

(** X2. When the fetch and the checkout succeed and the
    commit listing prints nothing but white space, the collector stops
    there: it reports the no-changes error with status 500 and runs
    neither the diff, nor the log, nor the stat. *)
Theorem empty_range_stops_after_listing n base branch w tr o1 o2 out :
  shell_run w tr "git fetch origin" = Exit0 o1 ->
  shell_run w (tr ++ [Shell "git fetch origin"])%list
    ("git checkout " ++ local_branch_of branch) = Exit0 o2 ->
  shell_run w (tr ++ [Shell "git fetch origin";
                      Shell ("git checkout " ++ local_branch_of branch)])%list
    (rev_list_cmd n base) = Exit0 (Utf8 out) ->
  Text.strip out = EmptyString ->
  run_git_commands n base branch w tr
  = (Raise (HTTPException 500 no_changes_msg),
     (tr ++ [Shell "git fetch origin";
             Shell ("git checkout " ++ local_branch_of branch);
             Shell (rev_list_cmd n base)])%list).
Proof.
  intros H1 H2 H3 Hs.
  unfold run_git_commands, try_except, run_git_commands_body, bind,
    check_output, decode, ret, raise, start_error.
  rewrite H1. cbv beta iota. flat_trace.
  rewrite H2. cbv beta iota. flat_trace.
  rewrite H3. cbv beta iota. flat_trace.
  rewrite Hs. reflexivity.
Qed.

Lemma empty_range_stops_after_listing_witness :
  run_git_commands (PInt 14) "dev" "feature/x" Cases.nothing_ahead []
  = (Raise (HTTPException 500 no_changes_msg),
     ([] ++ [Shell "git fetch origin";
             Shell ("git checkout " ++ local_branch_of "feature/x");
             Shell (rev_list_cmd (PInt 14) "dev")])%list).
Proof.
  apply (empty_range_stops_after_listing (PInt 14) "dev" "feature/x"
           Cases.nothing_ahead [] (Utf8 Text.LF) (Utf8 Text.LF) Text.LF);
    reflexivity.
Defined.

(** X3. Whatever the repository answers, the commands
    the collector runs are the first [k] of fetch, checkout, commit
    listing, diff, log, stat, in that order, for some [k] between 1 and
    6: the fetch always runs first, and a context is returned only after
    all six have run. *)
Theorem collector_runs_a_prefix_of_six n base branch w tr :
  exists anchor k t,
    (1 <= k <= 6)%nat /\
    t = firstn k (collector_commands n base branch anchor) /\
    snd (run_git_commands n base branch w tr) = (tr ++ t)%list /\
    hd_error t = Some (Shell "git fetch origin") /\
    (forall ctx, fst (run_git_commands n base branch w tr) = Return ctx ->
                 t = collector_commands n base branch anchor).
Proof.
  destruct (run_git_commands_prefix n base branch w tr)
    as (anchor & k & Hk & Htr & Hret).
  exists anchor, k, (firstn k (collector_commands n base branch anchor)).
  split; [exact Hk|]. split; [reflexivity|]. split; [exact Htr|].
  split.
  - destruct k as [|k]; [lia | reflexivity].
  - intros ctx Hctx. now rewrite (Hret ctx Hctx).
Qed.





(** ** The anchor for any commit count *)



(** ** The generator: every outcome of a call *)

(** X6. A provider other than ["gpt"] and ["gemini"] is
    refused with status 400 before anything is sent: the generator makes
    no call at all. *)
Theorem unsupported_provider_makes_no_call
    provider api_key model template git_data w tr :
  provider <> "gpt" -> provider <> "gemini" ->
  generate_pr_content provider api_key model template git_data w tr
  = (Raise (HTTPException 400 "Unsupported LLM provider"), tr).
Proof.
  intros Hgpt Hgem. unfold generate_pr_content.
  destruct (String.eqb_spec provider "gpt") as [->|_]; [now elim Hgpt|].
  destruct (String.eqb_spec provider "gemini") as [->|_]; [now elim Hgem|].
  reflexivity.
Qed.

Lemma unsupported_provider_makes_no_call_witness :
  generate_pr_content "GPT" "k0" "gpt-4o" "## Changes" "ctx"
    (Demo.world Demo.small_diff Demo.created Demo.created) []
  = (Raise (HTTPException 400 "Unsupported LLM provider"), []).
Proof.
  apply (unsupported_provider_makes_no_call "GPT" "k0" "gpt-4o" "## Changes" "ctx"
           (Demo.world Demo.small_diff Demo.created Demo.created) []);
    discriminate.
Defined.

Lemma generate_pr_content_on_200
    provider api_key model template git_data w tr r j :
  supported provider ->
  llm_answers w tr provider api_key model template git_data r ->
  status_code r = 200 ->
  parsed r = Some j ->
  generate_pr_content provider api_key model template git_data w tr
  = (match subscripts (extraction_path provider) j with
     | Return v => Return {| title := fixed_title provider model; body := v |}
     | Raise (KeyError k) =>
         if (provider =? "gemini")%string
         then Raise (HTTPException 500
                       ("Gemini response parsing failed: " ++ text r))
         else Raise (KeyError k)
     | Raise e => Raise e
     end,
     (tr ++ [Post (llm_url provider api_key model) (llm_headers provider api_key)
               (llm_payload provider model template git_data)])%list).
Proof.
  intros Hp Hpost Hs Hj.
  unfold generate_pr_content, bind, requests_post, try_except, response_json,
    lift, ret, raise.
  destruct Hp as [-> | ->].
  - change (http_post w tr gpt_url (gpt_headers api_key)
              (gpt_payload model template git_data) = Responded r) in Hpost.
    change ("gpt" =? "gpt")%string with true.
    change ("gpt" =? "gemini")%string with false.
    change (extraction_path "gpt") with gpt_path.
    change (llm_url "gpt" api_key model) with gpt_url.
    change (llm_headers "gpt" api_key) with (gpt_headers api_key).
    change (llm_payload "gpt" model template git_data)
      with (gpt_payload model template git_data).
    change (fixed_title "gpt" model) with ("Update: " ++ model ++ " generated PR").
    cbv beta iota. rewrite Hpost. cbv beta iota. rewrite Hs.
    change (negb (200 =? 200)) with false. cbv beta iota. rewrite Hj.
    cbv beta iota. unfold gpt_path. cbn [subscripts subscript].
    repeat match goal with
           | |- context [getitem_key ?v ?k] =>
               destruct (getitem_key v k) as [?|[]]; cbv beta iota
           | |- context [getitem_idx ?v ?k] =>
               destruct (getitem_idx v k) as [?|[]]; cbv beta iota
           end; reflexivity.
  - change (http_post w tr (gemini_url api_key model) gemini_headers
              (gemini_payload template git_data) = Responded r) in Hpost.
    change ("gemini" =? "gpt")%string with false.
    change ("gemini" =? "gemini")%string with true.
    change (extraction_path "gemini") with gemini_path.
    change (llm_url "gemini" api_key model) with (gemini_url api_key model).
    change (llm_headers "gemini" api_key) with gemini_headers.
    change (llm_payload "gemini" model template git_data)
      with (gemini_payload template git_data).
    change (fixed_title "gemini" model) with "Automated PR by Gemini".
    cbv beta iota. rewrite Hpost. cbv beta iota. rewrite Hs.
    change (negb (200 =? 200)) with false. cbv beta iota. rewrite Hj.
    cbv beta iota. unfold gemini_path. cbn [subscripts subscript].
    repeat match goal with
           | |- context [getitem_key ?v ?k] =>
               destruct (getitem_key v k) as [?|[]]; cbv beta iota
           | |- context [getitem_idx ?v ?k] =>
               destruct (getitem_idx v k) as [?|[]]; cbv beta iota
           end; reflexivity.
Qed.


(** X7. On an answer with status 200 and a JSON body,
    what the generator does is decided by subscripting the body along
    the provider's path: a value found becomes the body of the draft,
    under the provider's fixed title; on the Gemini branch a [KeyError]
    becomes an HTTP error 500 that carries the answer's text; every
    other exception, and a [KeyError] on the chat branch, leaves the
    generator as it is. *)
Theorem generator_outcome_on_200
    provider api_key model template git_data w tr r j :
  supported provider ->
  llm_answers w tr provider api_key model template git_data r ->
  status_code r = 200 ->
  parsed r = Some j ->
  fst (generate_pr_content provider api_key model template git_data w tr)
  = match subscripts (extraction_path provider) j with
    | Return v => Return {| title := fixed_title provider model; body := v |}
    | Raise (KeyError k) =>
        if (provider =? "gemini")%string
        then Raise (HTTPException 500
                      ("Gemini response parsing failed: " ++ text r))
        else Raise (KeyError k)
    | Raise e => Raise e
    end.
Proof.
  intros Hp Hpost Hs Hj.
  now rewrite (generate_pr_content_on_200 _ _ _ _ _ _ _ _ _ Hp Hpost Hs Hj).
Qed.

Lemma generator_outcome_on_200_witness :
  fst (generate_pr_content "gemini" "k0" "gemini-2.0-flash-lite" "## Changes" "ctx"
         (Demo.world Demo.small_diff
            (Demo.respond 200 "no parts"
               (Some (JObj [("candidates", JArr [JObj [("content", JObj [])]])])))
            Demo.created) [])
  = Raise (HTTPException 500 "Gemini response parsing failed: no parts").
Proof.
  exact (generator_outcome_on_200 "gemini" "k0" "gemini-2.0-flash-lite"
           "## Changes" "ctx"
           (Demo.world Demo.small_diff
              (Demo.respond 200 "no parts"
                 (Some (JObj [("candidates", JArr [JObj [("content", JObj [])]])])))
              Demo.created) []
           {| status_code := 200; text := "no parts";
              parsed := Some (JObj [("candidates", JArr [JObj [("content", JObj [])]])]) |}
           (JObj [("candidates", JArr [JObj [("content", JObj [])]])])
           (or_intror eq_refl) eq_refl eq_refl eq_refl).
Defined.

Lemma json_at_subscripts (path : list step) (j v : json) :
  json_at path j = Some v -> subscripts path j = Return v.
Proof.
  revert j; induction path as [|[k|i] rest IH]; intros j H.
  - simpl in *. now injection H as ->.
  - destruct j; try discriminate H.
    cbn [json_at subscripts subscript getitem_key] in *.
    destruct (assoc k fields); [now apply IH | discriminate H].
  - destruct j; try discriminate H.
    cbn [json_at subscripts subscript getitem_idx] in *.
    destruct (nth_error items i); [now apply IH | discriminate H].
Qed.

(** X8. For a supported provider, the generator
    returns a draft exactly when the endpoint answered with status 200
    and a JSON body that has a value at the provider's path (objects
    under the keys, arrays under the indices). *)
Theorem generation_succeeds_iff_path_exists
    provider api_key model template git_data w tr r :
  supported provider ->
  llm_answers w tr provider api_key model template git_data r ->
  (exists d tr',
     generate_pr_content provider api_key model template git_data w tr
     = (Return d, tr'))
  <->
  (status_code r = 200 /\
   exists j v, parsed r = Some j /\ json_at (extraction_path provider) j = Some v).
Proof.
  intros Hp Hpost. split.
  - intros (d & tr' & H).
    apply generate_pr_content_returns in H.
    destruct H as (r' & j & Hpost' & _ & Hs & Hj & Hcase).
    unfold llm_answers in Hpost, Hpost'. rewrite Hpost in Hpost'.
    injection Hpost' as <-.
    split; [exact Hs|]. exists j, (body d). split; [exact Hj|].
    destruct Hcase as [(-> & _ & Hb) | (-> & _ & Hb)]; exact Hb.
  - intros (Hs & j & v & Hj & Hat).
    rewrite (generate_pr_content_on_200 _ _ _ _ _ _ _ _ _ Hp Hpost Hs Hj).
    rewrite (json_at_subscripts _ _ _ Hat).
    eexists. eexists. reflexivity.
Qed.

Lemma generation_succeeds_iff_path_exists_witness :
  (exists d tr',
     generate_pr_content "gpt" "k0" "gpt-4o" "## Changes" "ctx"
       (Demo.world Demo.small_diff
          (Demo.respond 200 "{...}" (Some (Demo.gpt_reply "Body"))) Demo.created) []
     = (Return d, tr'))
  <->
  (200 = 200 /\
   exists j v, Some (Demo.gpt_reply "Body") = Some j /\
               json_at (extraction_path "gpt") j = Some v).
Proof.
  exact (generation_succeeds_iff_path_exists "gpt" "k0" "gpt-4o" "## Changes" "ctx"
           (Demo.world Demo.small_diff
              (Demo.respond 200 "{...}" (Some (Demo.gpt_reply "Body"))) Demo.created) []
           {| status_code := 200; text := "{...}";
              parsed := Some (Demo.gpt_reply "Body") |}
           (or_introl eq_refl) eq_refl).
Defined.

(** X9. When the endpoint answers with status 200 and a body
    that is not JSON, the decoding error leaves the generator as it is,
    for either provider: it is not turned into an HTTP error, and the
    Gemini branch does not catch it. *)
Theorem undecodable_answer_escapes
    provider api_key model template git_data w tr r :
  supported provider ->
  llm_answers w tr provider api_key model template git_data r ->
  status_code r = 200 ->
  parsed r = None ->
  exists msg,
    fst (generate_pr_content provider api_key model template git_data w tr)
    = Raise (JSONDecodeError msg).
Proof.
  intros Hp Hpost Hs Hj. eexists.
  unfold generate_pr_content, bind, requests_post, try_except, response_json,
    lift, ret, raise.
  destruct Hp as [-> | ->].
  - change (http_post w tr gpt_url (gpt_headers api_key)
              (gpt_payload model template git_data) = Responded r) in Hpost.
    change ("gpt" =? "gpt")%string with true.
    cbv beta iota. rewrite Hpost. cbv beta iota. rewrite Hs.
    change (negb (200 =? 200)) with false. cbv beta iota. rewrite Hj.
    reflexivity.
  - change (http_post w tr (gemini_url api_key model) gemini_headers
              (gemini_payload template git_data) = Responded r) in Hpost.
    change ("gemini" =? "gpt")%string with false.
    change ("gemini" =? "gemini")%string with true.
    cbv beta iota. rewrite Hpost. cbv beta iota. rewrite Hs.
    change (negb (200 =? 200)) with false. cbv beta iota. rewrite Hj.
    reflexivity.
Qed.

Lemma undecodable_answer_escapes_witness :
  exists msg,
    fst (generate_pr_content "gemini" "k0" "gemini-2.0-flash-lite" "## Changes" "ctx"
           (Demo.world Demo.small_diff (Demo.respond 200 "<html>" None)
              Demo.created) [])
    = Raise (JSONDecodeError msg).
Proof.
  exact (undecodable_answer_escapes "gemini" "k0" "gemini-2.0-flash-lite"
           "## Changes" "ctx"
           (Demo.world Demo.small_diff (Demo.respond 200 "<html>" None)
              Demo.created) []
           {| status_code := 200; text := "<html>"; parsed := None |}
           (or_intror eq_refl) eq_refl eq_refl eq_refl).
Defined.

(** X10. No [KeyError] ever leaves the Gemini branch,
    whatever the endpoint answers. *)
Theorem gemini_never_raises_key_error api_key model template git_data w tr k :
  fst (generate_pr_content "gemini" api_key model template git_data w tr)
  <> Raise (KeyError k).
Proof.
  unfold generate_pr_content, bind, requests_post, try_except, response_json,
    lift, ret, raise.
  change ("gemini" =? "gpt")%string with false.
  change ("gemini" =? "gemini")%string with true. cbv beta iota.
  destruct (http_post w tr _ _ _) as [r|m]; [|discriminate].
  cbv beta iota.
  destruct (negb (status_code r =? 200)); [discriminate|].
  destruct (parsed r) as [j|]; [|discriminate].
  cbv beta iota.
  repeat match goal with
         | |- context [getitem_key ?v ?k] =>
             destruct (getitem_key v k) as [?|[]]; cbv beta iota
         | |- context [getitem_idx ?v ?k] =>
             destruct (getitem_idx v k) as [?|[]]; cbv beta iota
         end; discriminate.
Qed.

(** X11. The generator accepts status 200 only: any other
    status, 201 to 299 included, ends in an HTTP error of that status
    whose detail is "LLM Error: " followed by the text of the answer,
    after the one call. *)
Theorem only_200_is_accepted provider api_key model template git_data w tr r :
  supported provider ->
  llm_answers w tr provider api_key model template git_data r ->
  status_code r <> 200 ->
  generate_pr_content provider api_key model template git_data w tr
  = (Raise (HTTPException (status_code r) ("LLM Error: " ++ text r)),
     (tr ++ [Post (llm_url provider api_key model) (llm_headers provider api_key)
               (llm_payload provider model template git_data)])%list).
Proof.
  intros Hp Hpost Hs. apply Z.eqb_neq in Hs.
  unfold generate_pr_content, bind, requests_post.
  destruct Hp as [-> | ->].
  - change (http_post w tr gpt_url (gpt_headers api_key)
              (gpt_payload model template git_data) = Responded r) in Hpost.
    change ("gpt" =? "gpt")%string with true. cbv beta iota.
    rewrite Hpost. cbv beta iota. now rewrite Hs.
  - change (http_post w tr (gemini_url api_key model) gemini_headers
              (gemini_payload template git_data) = Responded r) in Hpost.
    change ("gemini" =? "gpt")%string with false.
    change ("gemini" =? "gemini")%string with true. cbv beta iota.
    rewrite Hpost. cbv beta iota. now rewrite Hs.
Qed.

Lemma only_200_is_accepted_witness :
  generate_pr_content "gpt" "k0" "gpt-4o" "## Changes" "ctx"
    (Demo.world Demo.small_diff (Demo.respond 202 "accepted" (Some (Demo.gpt_reply "Body")))
       Demo.created) []
  = (Raise (HTTPException 202 ("LLM Error: " ++ "accepted")),
     ([] ++ [Post (llm_url "gpt" "k0" "gpt-4o") (llm_headers "gpt" "k0")
               (llm_payload "gpt" "gpt-4o" "## Changes" "ctx")])%list).
Proof.
  apply (only_200_is_accepted "gpt" "k0" "gpt-4o" "## Changes" "ctx"
           (Demo.world Demo.small_diff
              (Demo.respond 202 "accepted" (Some (Demo.gpt_reply "Body")))
              Demo.created) []
           {| status_code := 202; text := "accepted";
              parsed := Some (Demo.gpt_reply "Body") |}).
  - left. reflexivity.
  - reflexivity.
  - simpl. lia.
Defined.

(** ** The endpoint: what a success response stands for *)

Lemma create_github_pull_request_returns req title body w tr pr_result tr' :
  create_github_pull_request req title body w tr = (Return pr_result, tr') ->
  exists r,
    github_answers w tr req title body r /\
    status_code r = 201 /\
    parsed r = Some pr_result /\
    tr' = (tr ++ [Post (github_url req) (github_headers req)
                    (github_payload req title body)])%list.
Proof.
  unfold create_github_pull_request, bind, requests_post, response_json, ret,
    raise, github_answers.
  intros H.
  destruct (http_post w tr _ _ _) as [r|m]; [|discriminate H].
  cbv beta iota in H.
  destruct (status_code r =? 201) eqn:Hs; [|discriminate H].
  destruct (parsed r) as [j|] eqn:Hj; [|discriminate H].
  injection H as <- <-.
  exists r. repeat split; try reflexivity; [now apply Z.eqb_eq | exact Hj].
Qed.

Lemma py_get_returns (v : json) (k : string) (x : json) :
  py_get v k = Return x -> exists kv, v = JObj kv /\ x = get_or_null k kv.
Proof.
  destruct v; simpl; intros H; try discriminate H.
  exists fields. split; [reflexivity|]. unfold get_or_null.
  destruct (assoc k fields); now injection H as <-.
Qed.

(** A response is returned only at the end of a complete run. *)
Lemma create_pr_endpoint_returns request w tr content t :
  create_pr_endpoint request w tr = (Return content, t) ->
  exists git_data t1 d t2 r kv,
    run_git_commands (n_commits request) (base_branch request) (branch request) w tr
    = (Return git_data, t1) /\
    generate_pr_content (llm_provider request) (llm_api_key request)
      (llm_model request) (pr_template request) git_data w t1 = (Return d, t2) /\
    github_answers w t2 request (title d) (body d) r /\
    status_code r = 201 /\
    parsed r = Some (JObj kv) /\
    content = success_response (get_or_null "html_url" kv) (get_or_null "number" kv) /\
    t = (t2 ++ [Post (github_url request) (github_headers request)
                  (github_payload request (title d) (body d))])%list.
Proof.
  unfold create_pr_endpoint, bind. intros H.
  destruct (run_git_commands _ _ _ w tr) as [[git_data|e] t1] eqn:Hc;
    [|discriminate H].
  destruct (generate_pr_content _ _ _ _ git_data w t1) as [[d|e] t2] eqn:Hg;
    [|discriminate H].
  destruct (create_github_pull_request request (title d) (body d) w t2)
    as [[pr_result|e] t3] eqn:Hp; [|discriminate H].
  apply create_github_pull_request_returns in Hp.
  destruct Hp as (r & Hpost & Hs & Hj & ->).
  unfold lift, ret in H.
  destruct (py_get pr_result "html_url") as [u|e] eqn:Hu; [|discriminate H].
  destruct (py_get pr_result "number") as [k|e] eqn:Hk; [|discriminate H].
  injection H as <- <-.
  apply py_get_returns in Hu. destruct Hu as (kv & -> & ->).
  apply py_get_returns in Hk. destruct Hk as (kv' & Heq & ->).
  injection Heq as <-.
  exists git_data, t1, d, t2, r, kv. repeat split; assumption.
Qed.



Lemma local_branch_of_origin (b : string) : local_branch_of ("origin/" ++ b) = b.
Proof. unfold local_branch_of. now rewrite prefix_app. Qed.

(** X13. For a request whose branch is written with the
    remote prefix, ["origin/" ++ b], a successful run has checked out
    [b], without the prefix, while the pull request was opened with the
    head ["origin/" ++ b], prefix included. *)
Theorem checkout_drops_origin_head_keeps_it request w b content t :
  branch request = "origin/" ++ b ->
  create_pr_endpoint request w [] = (Return content, t) ->
  nth_error t 1 = Some (Shell ("git checkout " ++ b)) /\
  exists url headers fields,
    nth_error t 7 = Some (Post url headers (JObj fields)) /\
    String.prefix github_api url = true /\
    assoc "head" fields = Some (JStr ("origin/" ++ b)).
Proof.
  intros Hb H. apply create_pr_endpoint_returns in H.
  destruct H as (git_data & t1 & d & t2 & r & kv & Hc & Hg & _ & _ & _ & _ & ->).
  apply run_git_commands_returns in Hc.
  destruct Hc as (rev & diff & s & st & _ & _ & _ & _ & _ & _ & ->).
  apply generate_pr_content_returns in Hg.
  destruct Hg as (answer & j & _ & -> & _).
  rewrite Hb. unfold collector_commands. rewrite local_branch_of_origin.
  split; [reflexivity|].
  exists (github_url request), (github_headers request). eexists.
  split; [reflexivity|]. split; [apply github_url_is_github|].
  rewrite Hb. reflexivity.
Qed.

Lemma checkout_drops_origin_head_keeps_it_witness :
  nth_error (snd (create_pr_endpoint Cases.origin_request Cases.all_fine [])) 1
  = Some (Shell ("git checkout " ++ "feature/x")) /\
  exists url headers fields,
    nth_error (snd (create_pr_endpoint Cases.origin_request Cases.all_fine [])) 7
    = Some (Post url headers (JObj fields)) /\
    String.prefix github_api url = true /\
    assoc "head" fields = Some (JStr ("origin/" ++ "feature/x")).
Proof.
  apply (checkout_drops_origin_head_keeps_it Cases.origin_request Cases.all_fine
           "feature/x"
           (success_response (JStr "https://github.com/octo/demo/pull/7") (JNum 7))).
  - reflexivity.
  - reflexivity.
Defined.

(** X14. When the collector and the generator have
    succeeded and the hosting service answers 201 with a body that is
    not a JSON object, the request fails although the creation call has
    been made: a body that is not JSON raises the decoding error, a JSON
    value that is not an object raises an [AttributeError]; neither is
    an HTTP error. *)
Theorem created_with_unusable_body request w tr git_data t1 d t2 r :
  run_git_commands (n_commits request) (base_branch request) (branch request) w tr
  = (Return git_data, t1) ->
  generate_pr_content (llm_provider request) (llm_api_key request)
    (llm_model request) (pr_template request) git_data w t1 = (Return d, t2) ->
  github_answers w t2 request (title d) (body d) r ->
  status_code r = 201 ->
  (forall kv, parsed r <> Some (JObj kv)) ->
  exists msg,
    create_pr_endpoint request w tr
    = (Raise (match parsed r with
              | None => JSONDecodeError msg
              | Some _ => AttributeError msg
              end),
       (t2 ++ [Post (github_url request) (github_headers request)
                 (github_payload request (title d) (body d))])%list).
Proof.
  intros Hc Hg Hpost Hs Hobj.
  unfold create_pr_endpoint, bind.
  rewrite Hc. cbv beta iota. rewrite Hg. cbv beta iota.
  unfold create_github_pull_request, bind, requests_post, response_json.
  rewrite Hpost. cbv beta iota. rewrite Hs.
  change (201 =? 201) with true. cbv beta iota.
  destruct (parsed r) as [j|].
  - destruct j; try (eexists; reflexivity).
    now elim (Hobj fields).
  - eexists; reflexivity.
Qed.

Lemma created_with_unusable_body_witness :
  exists msg,
    create_pr_endpoint (Demo.request "gemini" "gemini-2.0-flash-lite")
      (Demo.world Demo.small_diff
         (Demo.respond 200 "{...}" (Some (Demo.gemini_reply "Body")))
         (Demo.respond 201 "[]" (Some (JArr [])))) []
    = (Raise (AttributeError msg),
       (collector_commands (PInt 14) "dev" "feature/x" "c07"
        ++ [Post (gemini_url "k0" "gemini-2.0-flash-lite") gemini_headers
              (gemini_payload "## Changes"
                 (full_context "c20 Add feature" " 1 file changed, 1 insertion(+)"
                    Demo.small_diff))]
        ++ [Post (github_url (Demo.request "gemini" "gemini-2.0-flash-lite"))
              (github_headers (Demo.request "gemini" "gemini-2.0-flash-lite"))
              (github_payload (Demo.request "gemini" "gemini-2.0-flash-lite")
                 "Automated PR by Gemini" (JStr "Body"))])%list).
Proof.
  refine (created_with_unusable_body
            (Demo.request "gemini" "gemini-2.0-flash-lite")
            (Demo.world Demo.small_diff
               (Demo.respond 200 "{...}" (Some (Demo.gemini_reply "Body")))
               (Demo.respond 201 "[]" (Some (JArr [])))) []
            (full_context "c20 Add feature" " 1 file changed, 1 insertion(+)"
               Demo.small_diff)
            (collector_commands (PInt 14) "dev" "feature/x" "c07")
            {| title := "Automated PR by Gemini"; body := JStr "Body" |}
            (collector_commands (PInt 14) "dev" "feature/x" "c07"
             ++ [Post (gemini_url "k0" "gemini-2.0-flash-lite") gemini_headers
                   (gemini_payload "## Changes"
                      (full_context "c20 Add feature"
                         " 1 file changed, 1 insertion(+)" Demo.small_diff))])%list
            {| status_code := 201; text := "[]"; parsed := Some (JArr []) |}
            _ _ _ _ _); try reflexivity.
  intros kv. discriminate.
Defined.

(** ** No retry *)

Lemma generate_pr_content_at_most_one provider api_key model template git_data w tr :
  exists tg,
    snd (generate_pr_content provider api_key model template git_data w tr)
    = (tr ++ tg)%list /\
    forallb is_llm_post tg = true /\
    (List.length tg <= 1)%nat.
Proof.
  unfold generate_pr_content, bind, requests_post, try_except, response_json,
    lift, ret, raise.
  destruct (provider =? "gpt")%string.
  - exists [Post gpt_url (gpt_headers api_key) (gpt_payload model template git_data)].
    split; [|split; [reflexivity | simpl; lia]].
    destruct (http_post w tr gpt_url _ _) as [r|m]; [|reflexivity].
    cbv beta iota.
    destruct (negb (status_code r =? 200)); [reflexivity|].
    destruct (parsed r) as [j|]; [|reflexivity].
    repeat match goal with
           | |- context [getitem_key ?v ?k] => destruct (getitem_key v k)
           | |- context [getitem_idx ?v ?k] => destruct (getitem_idx v k)
           end; reflexivity.
  - destruct (provider =? "gemini")%string.
    + exists [Post (gemini_url api_key model) gemini_headers
                (gemini_payload template git_data)].
      split; [|split; [|simpl; lia]].
      * destruct (http_post w tr _ _ _) as [r|m]; [|reflexivity].
        cbv beta iota.
        destruct (negb (status_code r =? 200)); [reflexivity|].
        destruct (parsed r) as [j|]; [|reflexivity].
        repeat match goal with
               | |- context [getitem_key ?v ?k] =>
                   destruct (getitem_key v k) as [?|[]]
               | |- context [getitem_idx ?v ?k] =>
                   destruct (getitem_idx v k) as [?|[]]
               end; reflexivity.
      * cbn [forallb]. unfold is_llm_post.
        change (gemini_url api_key model)
          with ("https://generativelanguage.googleapis.com/"
                ++ "v1beta/models/" ++ model ++ ":generateContent?key=" ++ api_key).
        rewrite prefix_app. now rewrite orb_true_r.
    + exists []. split; [now rewrite List.app_nil_r|].
      split; [reflexivity | simpl; lia].
Qed.

(** X15. A request makes at most eight outside calls and never
    repeats a stage: at most six shell commands, then at most one call
    to a language-model endpoint, then at most one call to the hosting
    service, in that order, whatever the three parties answer. *)
Theorem at_most_eight_calls (request : PRRequest) (w : World) (tr : list event) :
  exists tc tg tp,
    snd (create_pr_endpoint request w tr) = (tr ++ tc ++ tg ++ tp)%list /\
    forallb is_shell tc = true /\ (List.length tc <= 6)%nat /\
    forallb is_llm_post tg = true /\ (List.length tg <= 1)%nat /\
    forallb is_github_post tp = true /\ (List.length tp <= 1)%nat.
Proof.
  destruct (run_git_commands_prefix (n_commits request) (base_branch request)
              (branch request) w tr) as (anchor & k & Hk & Htc & _).
  destruct (run_git_commands_trace (n_commits request) (base_branch request)
              (branch request) w tr) as (tc & Htc' & Hshell & _).
  rewrite Htc in Htc'. apply List.app_inv_head in Htc'.
  assert (Hlen : (List.length tc <= 6)%nat).
  { rewrite <- Htc'. rewrite List.length_firstn. lia. }
  rewrite Htc' in Htc. clear Htc' Hk k anchor.
  unfold create_pr_endpoint, bind.
  destruct (run_git_commands _ _ _ w tr) as [[git_data|e] t1].
  - simpl snd in Htc. subst t1.
    destruct (generate_pr_content_at_most_one (llm_provider request)
                (llm_api_key request) (llm_model request) (pr_template request)
                git_data w (tr ++ tc)%list) as (tg & Htg & Hllm & Hone).
    destruct (generate_pr_content _ _ _ _ git_data w _) as [[d|e] t2].
    + simpl snd in Htg. subst t2.
      pose proof (create_github_pull_request_trace request (title d) (body d) w
                    ((tr ++ tc) ++ tg)%list) as Hp.
      exists tc, tg,
        [Post (github_url request) (github_headers request)
           (github_payload request (title d) (body d))].
      split.
      * destruct (create_github_pull_request _ _ _ w _) as [[pr_result|e] t3];
          simpl snd in Hp; subst t3.
        -- unfold lift, ret.
           destruct (py_get pr_result "html_url");
             [destruct (py_get pr_result "number")|];
             simpl snd; now rewrite <- !List.app_assoc.
        -- simpl snd. now rewrite <- !List.app_assoc.
      * repeat split; try assumption; try (simpl; lia).
    + simpl snd in Htg. subst t2.
      exists tc, tg, []. simpl snd.
      repeat split; try assumption; try (simpl; lia).
      now rewrite List.app_nil_r, <- List.app_assoc.
  - simpl snd in Htc. subst t1.
    exists tc, [], []. simpl snd.
    repeat split; try assumption; try (simpl; lia).
    now rewrite !List.app_nil_r.
Qed.

(** ** Requests: mandatory fields, environment defaults, the provider *)

Ltac other_fields :=
  repeat match goal with
         | |- context [field ?f ?n ?d ?obj] => destruct (field f n d obj)
         end.

Lemma env_default_unset getenv key :
  unset getenv key -> env_default getenv key None = Required.
Proof. unfold env_default. now intros [-> | ->]. Qed.

Lemma env_default_set getenv key val default_val :
  is_set getenv key val -> env_default getenv key default_val = Default val.
Proof.
  unfold env_default. intros [-> Hne].
  destruct val; [now elim Hne | reflexivity].
Qed.

(** X16. The six fields without a built-in default (owner,
    repository, token, branch, llm_provider, llm_api_key) are mandatory
    when the environment does not supply them: a body that lacks one of
    them, while its variable is unset or set to the empty text, is
    answered 422, and the endpoint does not run. *)
Theorem missing_mandatory_field_rejected
    (getenv : string -> option string)
    (validate_str : json -> option string) (validate_int : json -> option Z)
    (w : World) (tr : list event) (obj : list (string * json))
    (name key : string) :
  In (name, key) mandatory_fields ->
  assoc name obj = None ->
  unset getenv key ->
  post_create_pr getenv validate_str validate_int (Some (JObj obj)) w tr
  = (Unprocessable422, tr).
Proof.
  intros Hin Hname Hkey.
  assert (Hparse : parse_request getenv validate_str validate_int obj = None).
  { unfold parse_request, mandatory_fields in *.
    simpl in Hin.
    repeat (destruct Hin as [Heq | Hin];
            [ injection Heq as <- <-;
              match goal with
              | Hn : assoc ?n obj = None, Hk : unset getenv ?k |- _ =>
                  assert (Hf : forall f : json -> option string,
                             field f n (env_default getenv k None) obj = None)
                    by (intros f; unfold field; rewrite Hn;
                        now rewrite (env_default_unset getenv _ Hk));
                  rewrite Hf
              end;
              other_fields; reflexivity
            | ]).
    contradiction. }
  unfold post_create_pr. now rewrite Hparse.
Qed.

Lemma missing_mandatory_field_rejected_witness :
  post_create_pr Demo.getenv_claude Demo.str_only Demo.int_only
    (Some (JObj [("owner", JStr "octo"); ("repository", JStr "demo");
                 ("branch", JStr "feature/x"); ("llm_api_key", JStr "k0")]))
    Cases.all_fine []
  = (Unprocessable422, []).
Proof.
  apply (missing_mandatory_field_rejected Demo.getenv_claude Demo.str_only
           Demo.int_only Cases.all_fine [] _ "token" "GITHUB_TOKEN").
  - simpl. auto.
  - reflexivity.
  - left. reflexivity.
Defined.

(** X17. When the environment sets the six variables of the
    mandatory fields to non-empty texts, an empty body is accepted and
    the request is made of those texts; the provider is taken from the
    environment as it is, supported or not.  Without their variables the
    base branch is ["dev"], the commit count is 14 and the model is
    ["gemini-2.0-flash-lite"]; a commit count from the environment stays
    the text the variable holds. *)
Theorem environment_alone_configures
    (getenv : string -> option string)
    (validate_str : json -> option string) (validate_int : json -> option Z)
    (o r t b p k : string) :
  is_set getenv "GITHUB_OWNER" o ->
  is_set getenv "GITHUB_REPOSITORY" r ->
  is_set getenv "GITHUB_TOKEN" t ->
  is_set getenv "GITHUB_BRANCH" b ->
  is_set getenv "LLM_PROVIDER" p ->
  is_set getenv "LLM_API_KEY" k ->
  exists req,
    parse_request getenv validate_str validate_int [] = Some req /\
    owner req = o /\ repository req = r /\ token req = t /\ branch req = b /\
    llm_provider req = p /\ llm_api_key req = k /\
    (getenv "GITHUB_BASE_BRANCH" = None -> base_branch req = "dev") /\
    (getenv "GIT_N_COMMITS" = None -> n_commits req = PInt 14) /\
    (forall val, getenv "GIT_N_COMMITS" = Some val -> n_commits req = PStr val) /\
    (getenv "LLM_MODEL" = None -> llm_model req = "gemini-2.0-flash-lite").
Proof.
  intros Ho Hr Ht Hb Hp Hk.
  unfold parse_request, field. cbn [assoc].
  rewrite (env_default_set _ _ _ None Ho), (env_default_set _ _ _ None Hr),
    (env_default_set _ _ _ None Ht), (env_default_set _ _ _ None Hb),
    (env_default_set _ _ _ None Hp), (env_default_set _ _ _ None Hk).
  unfold n_commits_default, env_default.
  destruct (getenv "GITHUB_BASE_BRANCH") as [[|c1 s1]|];
    destruct (getenv "GIT_N_COMMITS") as [vn|];
    destruct (getenv "PR_TEMPLATE") as [[|c2 s2]|];
    destruct (getenv "LLM_MODEL") as [[|c3 s3]|];
    cbn [Text.is_empty];
    eexists; (split; [reflexivity|]); cbn;
    repeat split; try reflexivity; try discriminate;
    intros val Hval; now injection Hval as <-.
Qed.

Lemma environment_alone_configures_witness :
  exists req,
    parse_request Cases.getenv_full Demo.str_only Demo.int_only [] = Some req /\
    owner req = "octo" /\ repository req = "demo" /\ token req = "t0" /\
    branch req = "feature/x" /\ llm_provider req = "claude" /\
    llm_api_key req = "k0" /\
    (Cases.getenv_full "GITHUB_BASE_BRANCH" = None -> base_branch req = "dev") /\
    (Cases.getenv_full "GIT_N_COMMITS" = None -> n_commits req = PInt 14) /\
    (forall val, Cases.getenv_full "GIT_N_COMMITS" = Some val ->
                 n_commits req = PStr val) /\
    (Cases.getenv_full "LLM_MODEL" = None -> llm_model req = "gemini-2.0-flash-lite").
Proof.
  apply (environment_alone_configures Cases.getenv_full Demo.str_only Demo.int_only
           "octo" "demo" "t0" "feature/x" "claude" "k0");
    (split; [reflexivity | discriminate]).
Defined.

Lemma validate_literal_accepts (v : json) (p : string) :
  validate_literal supported_providers v = Some p -> v = JStr p /\ supported p.
Proof.
  destruct v as [| | |s| |]; simpl; try discriminate.
  destruct (String.eqb_spec s "gemini") as [->|_].
  - intros H. injection H as <-. split; [reflexivity | now right].
  - destruct (String.eqb_spec s "gpt") as [->|_]; [|discriminate].
    intros H. injection H as <-. split; [reflexivity | now left].
Qed.

(** A request accepted with a provider in its body carries that
    provider, and it is one of the two supported ones. *)
Lemma parse_request_provider getenv validate_str validate_int obj req v :
  parse_request getenv validate_str validate_int obj = Some req ->
  assoc "llm_provider" obj = Some v ->
  v = JStr (llm_provider req) /\ supported (llm_provider req).
Proof.
  unfold parse_request. intros H Hv.
  destruct (field (validate_literal supported_providers) "llm_provider"
              (env_default getenv "LLM_PROVIDER" None) obj) as [p|] eqn:Hp.
  - unfold field in Hp. rewrite Hv in Hp.
    apply validate_literal_accepts in Hp.
    revert H. other_fields; intros H; try discriminate H.
    injection H as <-. exact Hp.
  - revert H. other_fields; intros H; discriminate H.
Qed.

Ltac differ := cbn [fst]; let H := fresh in intros H; simpl in H; discriminate H.

Lemma getitem_key_not_http v k e :
  getitem_key v k = Raise e -> is_http_exception e = false.
Proof.
  destruct v; simpl; intros H; try (injection H as <-; reflexivity).
  destruct (assoc k fields); [discriminate H | injection H as <-; reflexivity].
Qed.

Lemma getitem_idx_not_http v i e :
  getitem_idx v i = Raise e -> is_http_exception e = false.
Proof.
  destruct v; simpl; intros H; try (injection H as <-; reflexivity).
  - destruct (String.get i s); [discriminate H | injection H as <-; reflexivity].
  - destruct (nth_error items i); [discriminate H | injection H as <-; reflexivity].
Qed.

Ltac step_subscript :=
  match goal with
  | |- context [getitem_key ?v ?k] =>
      let E := fresh "E" in
      destruct (getitem_key v k) as [?|[]] eqn:E; cbv beta iota;
      try (apply getitem_key_not_http in E; simpl in E; discriminate E)
  | |- context [getitem_idx ?v ?k] =>
      let E := fresh "E" in
      destruct (getitem_idx v k) as [?|[]] eqn:E; cbv beta iota;
      try (apply getitem_idx_not_http in E; simpl in E; discriminate E)
  end.

Lemma supported_generate_not_unsupported
    provider api_key model template git_data w tr :
  supported provider ->
  fst (generate_pr_content provider api_key model template git_data w tr)
  <> Raise unsupported_error.
Proof.
  unfold unsupported_error.
  unfold generate_pr_content, bind, requests_post, try_except, response_json,
    lift, ret, raise.
  intros [-> | ->].
  - change ("gpt" =? "gpt")%string with true. cbv beta iota.
    destruct (http_post w tr _ _ _) as [r|m]; [|differ].
    cbv beta iota.
    destruct (negb (status_code r =? 200)); [differ|].
    destruct (parsed r) as [j|]; [|differ].
    cbv beta iota.
    repeat step_subscript; differ.
  - change ("gemini" =? "gpt")%string with false.
    change ("gemini" =? "gemini")%string with true. cbv beta iota.
    destruct (http_post w tr _ _ _) as [r|m]; [|differ].
    cbv beta iota.
    destruct (negb (status_code r =? 200)); [differ|].
    destruct (parsed r) as [j|]; [|differ].
    cbv beta iota.
    repeat step_subscript; differ.
Qed.

Lemma publish_not_unsupported req title body w tr :
  fst (create_github_pull_request req title body w tr) <> Raise unsupported_error.
Proof.
  unfold unsupported_error, create_github_pull_request, bind, requests_post,
    response_json, ret, raise.
  destruct (http_post w tr _ _ _) as [r|m]; [|differ].
  cbv beta iota.
  destruct (status_code r =? 201).
  - destruct (parsed r); differ.
  - differ.
Qed.

Lemma endpoint_not_unsupported request w tr :
  supported (llm_provider request) ->
  fst (create_pr_endpoint request w tr) <> Raise unsupported_error.
Proof.
  intros Hp.
  destruct (run_git_commands_trace (n_commits request) (base_branch request)
              (branch request) w tr) as (tc & _ & _ & H500).
  unfold create_pr_endpoint, bind.
  destruct (run_git_commands _ _ _ w tr) as [[git_data|e] t1].
  - pose proof (supported_generate_not_unsupported (llm_provider request)
                  (llm_api_key request) (llm_model request) (pr_template request)
                  git_data w t1 Hp) as Hg.
    destruct (generate_pr_content _ _ _ _ git_data w t1) as [[d|e] t2].
    + pose proof (publish_not_unsupported request (title d) (body d) w t2) as Hpub.
      destruct (create_github_pull_request _ _ _ w t2) as [[pr_result|e] t3].
      * unfold lift, ret, unsupported_error.
        destruct pr_result; simpl; try discriminate.
        destruct (assoc "html_url" fields); destruct (assoc "number" fields);
          discriminate.
      * exact Hpub.
    + cbn [fst] in *. intros H. apply Hg. now injection H as ->.
  - simpl in *. destruct H500 as [d ->]. unfold unsupported_error. discriminate.
Qed.

(** X18. A request whose body names a provider is never
    answered with the 400 "Unsupported LLM provider" of the generator:
    validation has either refused the request or made sure the provider
    is supported.  That answer can only come from a provider taken from
    the environment. *)
Theorem body_provider_never_unsupported
    (getenv : string -> option string)
    (validate_str : json -> option string) (validate_int : json -> option Z)
    (w : World) (tr : list event) (obj : list (string * json)) (v : json) :
  assoc "llm_provider" obj = Some v ->
  fst (post_create_pr getenv validate_str validate_int (Some (JObj obj)) w tr)
  <> HttpError 400 "Unsupported LLM provider".
Proof.
  intros Hv. unfold post_create_pr.
  destruct (parse_request getenv validate_str validate_int obj) as [req|] eqn:Hreq;
    [|discriminate].
  destruct (parse_request_provider _ _ _ _ _ _ Hreq Hv) as [_ Hp].
  pose proof (endpoint_not_unsupported req w tr Hp) as Hne.
  destruct (create_pr_endpoint req w tr) as [[content|e] t]; [discriminate|].
  simpl fst in Hne.
  destruct e; simpl; try discriminate.
  intros H. injection H as -> ->. now apply Hne.
Qed.

Lemma body_provider_never_unsupported_witness :
  fst (post_create_pr Demo.getenv_claude Demo.str_only Demo.int_only
         (Some (JObj [("owner", JStr "octo"); ("repository", JStr "demo");
                      ("token", JStr "t0"); ("branch", JStr "feature/x");
                      ("llm_provider", JStr "gemini"); ("llm_api_key", JStr "k0")]))
         Cases.all_fine [])
  <> HttpError 400 "Unsupported LLM provider".
Proof.
  apply (body_provider_never_unsupported Demo.getenv_claude Demo.str_only
           Demo.int_only Cases.all_fine [] _ (JStr "gemini")).
  reflexivity.
Defined.

(** ** What the hosting credentials touch *)

Lemma filter_all {A} (p : A -> bool) (l : list A) :
  forallb p l = true -> filter p l = l.
Proof.
  induction l as [|x l IH]; simpl; [reflexivity|].
  intros H. apply andb_true_iff in H. destruct H as [Hx Hl].
  now rewrite Hx, IH.
Qed.

Lemma stays_before_publish_shell tc :
  forallb is_shell tc = true -> forallb before_publish tc = true.
Proof.
  intros H. apply forallb_forall. intros x Hx.
  rewrite forallb_forall in H. unfold before_publish.
  now rewrite (proj2 (shell_not_post x (H x Hx))).
Qed.

Lemma stays_before_publish_llm tg :
  forallb is_llm_post tg = true -> forallb before_publish tg = true.
Proof.
  intros H. apply forallb_forall. intros x Hx.
  rewrite forallb_forall in H. unfold before_publish.
  now rewrite (llm_post_not_github x (H x Hx)).
Qed.

Lemma calls_before_publish request w :
  filter before_publish (snd (create_pr_endpoint request w []))
  = match run_git_commands (n_commits request) (base_branch request)
            (branch request) w [] with
    | (Return git_data, t1) =>
        snd (generate_pr_content (llm_provider request) (llm_api_key request)
               (llm_model request) (pr_template request) git_data w t1)
    | (Raise _, t1) => t1
    end.
Proof.
  destruct (run_git_commands_trace (n_commits request) (base_branch request)
              (branch request) w []) as (tc & Htc & Hshell & _).
  simpl app in Htc.
  unfold create_pr_endpoint, bind.
  destruct (run_git_commands _ _ _ w []) as [[git_data|e] t1]; simpl snd in Htc;
    subst t1.
  - destruct (generate_pr_content_trace (llm_provider request) (llm_api_key request)
                (llm_model request) (pr_template request) git_data w tc)
      as (tg & Htg & Hllm).
    assert (Hkeep : filter before_publish (tc ++ tg) = (tc ++ tg)%list).
    { apply filter_all. rewrite forallb_app.
      now rewrite (stays_before_publish_shell tc Hshell),
        (stays_before_publish_llm tg Hllm). }
    destruct (generate_pr_content _ _ _ _ git_data w tc) as [[d|e] t2];
      simpl snd in Htg; subst t2; simpl snd.
    + pose proof (create_github_pull_request_trace request (title d) (body d) w
                    (tc ++ tg)%list) as Hp.
      assert (Hall : filter before_publish
                       (snd (create_github_pull_request request (title d) (body d)
                               w (tc ++ tg)%list)) = (tc ++ tg)%list).
      { assert (Hgh : before_publish
                        (Post (github_url request) (github_headers request)
                           (github_payload request (title d) (body d))) = false).
        { unfold before_publish, is_github_post.
          now rewrite github_url_is_github. }
        rewrite Hp, filter_app, Hkeep. cbn [filter]. rewrite Hgh.
        apply List.app_nil_r. }
      destruct (create_github_pull_request _ _ _ w _) as [[pr_result|e] t3];
        simpl snd in Hall |- *; [|exact Hall].
      unfold lift, ret.
      destruct (py_get pr_result "html_url");
        [destruct (py_get pr_result "number")|]; exact Hall.
    + exact Hkeep.
  - simpl snd. apply filter_all. now apply stays_before_publish_shell.
Qed.

(** X20. Owner, repository and hosting token take no part in
    anything that happens before the publish call: two requests that
    agree on the branches, the commit count, the template and the
    language-model fields run the same git commands and send the same
    call to the language model, whatever their owner, repository and
    token are. *)
Theorem hosting_fields_only_reach_publish (a b : PRRequest) (w : World) :
  same_inputs a b ->
  filter before_publish (snd (create_pr_endpoint a w []))
  = filter before_publish (snd (create_pr_endpoint b w [])).
Proof.
  intros (Hbr & Hbase & Hn & Htpl & Hp & Hk & Hm).
  rewrite !calls_before_publish.
  now rewrite Hbr, Hbase, Hn, Htpl, Hp, Hk, Hm.
Qed.

Lemma hosting_fields_only_reach_publish_witness :
  filter before_publish
    (snd (create_pr_endpoint (Demo.request "gemini" "gemini-2.0-flash-lite")
            Cases.all_fine []))
  = filter before_publish
      (snd (create_pr_endpoint Cases.other_repository Cases.all_fine [])).
Proof.
  apply (hosting_fields_only_reach_publish
           (Demo.request "gemini" "gemini-2.0-flash-lite") Cases.other_repository
           Cases.all_fine).
  repeat split.
Defined.
